(** * NexusAI multi-provider gateway: connectors, response extraction,
      model manager and the thin-wrapper front-end.

    Shallow embedding of [backend/api_connector.py],
    [backend/model_manager.py] and [backend/ai_integration.py].

    Conventions of the embedding.
    - A Python [str] is a [string]; a character is a code point below 256
      and is classified as CPython classifies it ([str.isspace], [\w]).
    - A Python [dict] is an association list in insertion order (module
      [PyDict]): [next(iter(d))] is the head of the list.
    - A call that can raise returns an [outcome]: [Ret v] or [Raise e].
    - The network is an oracle answering each request; every request a
      connector issues is appended to a log that is threaded through. *)

From Stdlib Require Import String Ascii List Bool Arith ZArith Lia.
From Stdlib Require Import DecimalString.
Import ListNotations.
Open Scope string_scope.

(* ------------------------------------------------------------------ *)
(** ** Characters and strings *)

Module Str.

Definition nl : string := String "010"%char "".
Definition fence : string := "```".

Definition code (c : ascii) : nat := nat_of_ascii c.

Definition between (lo hi n : nat) : bool := ((lo <=? n) && (n <=? hi))%nat.

(** [str.isspace] on code points below 256. *)
Definition is_space (c : ascii) : bool :=
  let n := code c in
  (between 9 13 n || between 28 32 n || (n =? 133) || (n =? 160))%nat.

(** [\w] of a [str] pattern on code points below 256: alphanumeric per
    the Unicode database, or the underscore. *)
Definition is_word (c : ascii) : bool :=
  let n := code c in
  (between 48 57 n || between 65 90 n || (n =? 95) || between 97 122 n
   || (n =? 170) || (n =? 178) || (n =? 179) || (n =? 181) || (n =? 185)
   || (n =? 186) || between 188 190 n || between 192 214 n
   || between 216 246 n || between 248 255 n)%nat.

Fixpoint lstrip (s : string) : string :=
  match s with
  | String c s' => if is_space c then lstrip s' else s
  | EmptyString => EmptyString
  end.

Fixpoint rstrip (s : string) : string :=
  match s with
  | String c s' =>
      match rstrip s' with
      | EmptyString => if is_space c then EmptyString else String c EmptyString
      | r => String c r
      end
  | EmptyString => EmptyString
  end.

(** [s.strip()] *)
Definition strip (s : string) : string := rstrip (lstrip s).

(** [s[n:]] *)
Fixpoint drop (n : nat) (s : string) : string :=
  match n, s with
  | S n', String _ s' => drop n' s'
  | _, _ => s
  end.

(** [s[:n]] *)
Fixpoint take (n : nat) (s : string) : string :=
  match n, s with
  | S n', String c s' => String c (take n' s')
  | _, _ => EmptyString
  end.

(** [s] without the prefix [l], when it starts with it. *)
Fixpoint strip_prefix (l s : string) : option string :=
  match l, s with
  | EmptyString, _ => Some s
  | String a l', String b s' => if Ascii.eqb a b then strip_prefix l' s' else None
  | String _ _, EmptyString => None
  end.

(** [needle in s] *)
Fixpoint contains (needle s : string) : bool :=
  prefix needle s ||
  match s with
  | String _ s' => contains needle s'
  | EmptyString => false
  end.

(** [str(n)] for an integer. *)
Definition of_Z (z : Z) : string := NilEmpty.string_of_int (Z.to_int z).

(** Truthiness of a [str]. *)
Definition truthy (s : string) : bool :=
  match s with EmptyString => false | _ => true end.

End Str.

(* ------------------------------------------------------------------ *)
(** ** The backtracking matcher of [re], for the constructs the
       connectors' pattern uses *)

Module Re.

Import Str.

(** One-character sets. [CAny] is [.] under [re.DOTALL]. *)
Inductive cset : Type :=
| CChar (c : ascii)
| CAny
| CWord.

Definition cset_mem (cs : cset) (c : ascii) : bool :=
  match cs with
  | CChar d => Ascii.eqb c d
  | CAny => true
  | CWord => is_word c
  end.

Inductive regex : Type :=
| RLit (l : string)           (* the characters of l, literally *)
| RSet (cs : cset)            (* one character of the set *)
| RCat (r1 r2 : regex)        (* r1 r2 *)
| ROpt (r : regex)            (* (?:r)?  greedy *)
| RPlus (cs : cset)           (* cs+     greedy *)
| RPlusLazy (cs : cset)       (* cs+?    lazy *)
| RGroup (r : regex).         (* (r)     capturing group 1 *)

Section Matcher.

Context {R : Type}.

(** Continuations receive the number of characters consumed since the
    start of the match, the unread input and the text of group 1. *)
Definition cont : Type := nat -> string -> option string -> option R.

(** [cs*] greedy: take one more character when possible, and fall back
    to stopping here when the rest of the pattern fails. *)
Fixpoint star_greedy (cs : cset) (p : nat) (s : string)
         (k : nat -> string -> option R) : option R :=
  match s with
  | String c s' =>
      if cset_mem cs c then
        match star_greedy cs (S p) s' k with
        | Some x => Some x
        | None => k p s
        end
      else k p s
  | EmptyString => k p s
  end.

(** [cs*?] lazy: try the rest of the pattern first, and take one more
    character only when it fails. *)
Fixpoint star_lazy (cs : cset) (p : nat) (s : string)
         (k : nat -> string -> option R) : option R :=
  match k p s with
  | Some x => Some x
  | None =>
      match s with
      | String c s' => if cset_mem cs c then star_lazy cs (S p) s' k else None
      | EmptyString => None
      end
  end.

Fixpoint bt (r : regex) (p : nat) (s : string) (cap : option string)
         (k : cont) : option R :=
  match r with
  | RLit l =>
      match strip_prefix l s with
      | Some s' => k (p + String.length l) s' cap
      | None => None
      end
  | RSet cs =>
      match s with
      | String c s' => if cset_mem cs c then k (S p) s' cap else None
      | EmptyString => None
      end
  | RCat r1 r2 => bt r1 p s cap (fun p' s' cap' => bt r2 p' s' cap' k)
  | ROpt r1 =>
      match bt r1 p s cap k with
      | Some x => Some x
      | None => k p s cap
      end
  | RPlus cs =>
      match s with
      | String c s' =>
          if cset_mem cs c
          then star_greedy cs (S p) s' (fun p' s'' => k p' s'' cap)
          else None
      | EmptyString => None
      end
  | RPlusLazy cs =>
      match s with
      | String c s' =>
          if cset_mem cs c
          then star_lazy cs (S p) s' (fun p' s'' => k p' s'' cap)
          else None
      | EmptyString => None
      end
  | RGroup r1 =>
      bt r1 p s cap (fun p' s' _ => k p' s' (Some (take (p' - p) s)))
  end.

End Matcher.

(** [pattern.match(s)]: length of the match and text of group 1. *)
Definition match_at (r : regex) (s : string) : option (nat * option string) :=
  bt r 0 s None (fun p _ cap => Some (p, cap)).

(** [re.findall(r, s)] for a pattern with one group, and [re.sub(r, '', s)].
    Both scan left to right; [skip] counts the characters still covered by
    the last match, so the scan resumes at its end.  (Neither is used
    with a pattern that can match the empty string.) *)
Fixpoint findall_from (r : regex) (skip : nat) (s : string) : list string :=
  match s with
  | EmptyString => []
  | String _ s' =>
      match skip with
      | S n => findall_from r n s'
      | O =>
          match match_at r s with
          | Some (len, cap) =>
              match cap with Some g => g | None => "" end
                :: findall_from r (len - 1) s'
          | None => findall_from r 0 s'
          end
      end
  end.

Fixpoint sub_from (r : regex) (skip : nat) (s : string) : string :=
  match s with
  | EmptyString => EmptyString
  | String c s' =>
      match skip with
      | S n => sub_from r n s'
      | O =>
          match match_at r s with
          | Some (len, _) => sub_from r (len - 1) s'
          | None => String c (sub_from r 0 s')
          end
      end
  end.

Definition findall (r : regex) (s : string) : list string := findall_from r 0 s.
Definition sub_empty (r : regex) (s : string) : string := sub_from r 0 s.

End Re.

(* ------------------------------------------------------------------ *)
(** ** Response extraction (the block shared by the five connectors) *)

Module Extract.

Import Str Re.

(** [r'```(?:\w+)?\n(.+?)\n```'] *)
Definition fence_re : regex :=
  RCat (RLit fence)
    (RCat (ROpt (RPlus CWord))
       (RCat (RLit nl)
          (RCat (RGroup (RPlusLazy CAny))
             (RLit (nl ++ fence))))).

(** The two defaults assigned before the extraction. *)
Definition default_code : string := "// No code found in the response".
Definition default_explanation : string := "No explanation found in the response".

(** The part of each [generate_code] between reading [content] and the
    returned dictionary: [(code, explanation)].  Both defaults are
    overwritten on every path. *)
Definition extract (content : string) : string * string :=
  let code := default_code in
  let explanation := default_explanation in
  let code_blocks := findall fence_re content in
  let code :=
    match code_blocks with
    | b :: _ => b
    | [] => content
    end in
  let explanation := strip (sub_empty fence_re content) in
  (code, explanation).

(** Whether no suffix of [s] starts with a fenced block. *)
Fixpoint no_fence (s : string) : bool :=
  match match_at fence_re s with
  | Some _ => false
  | None =>
      match s with
      | String _ s' => no_fence s'
      | EmptyString => true
      end
  end.

(** No fenced block starts at any of the positions of [pre] in
    [pre ++ s]. *)
Fixpoint clear (pre s : string) : Prop :=
  match pre with
  | EmptyString => True
  | String c pre' =>
      match_at fence_re (String c pre' ++ s) = None /\ clear pre' s
  end.

(** Whether [s] has no backtick at all. *)
Fixpoint no_tick (s : string) : bool :=
  match s with
  | String c s' => negb (Ascii.eqb c "`"%char) && no_tick s'
  | EmptyString => true
  end.

(** The pattern read off as a function, to reason about the matcher:
    the run of word characters after the opener, and the distance to the
    first closing line. *)
Fixpoint skip_word (s : string) : string :=
  match s with
  | String c s' => if is_word c then skip_word s' else s
  | EmptyString => EmptyString
  end.

Fixpoint word_len (s : string) : nat :=
  match s with
  | String c s' => if is_word c then S (word_len s') else 0
  | EmptyString => 0
  end.

Fixpoint all_word (s : string) : bool :=
  match s with
  | String c s' => is_word c && all_word s'
  | EmptyString => true
  end.

Fixpoint closer_at (s : string) : option nat :=
  match strip_prefix (nl ++ fence) s with
  | Some _ => Some 0
  | None =>
      match s with
      | String _ s' => option_map S (closer_at s')
      | EmptyString => None
      end
  end.

Definition fence_direct (s : string) : option (nat * option string) :=
  match strip_prefix fence s with
  | None => None
  | Some s1 =>
      match strip_prefix nl (skip_word s1) with
      | None => None
      | Some s3 =>
          match s3 with
          | EmptyString => None
          | String _ s4 =>
              match closer_at s4 with
              | None => None
              | Some n =>
                  Some (3 + word_len s1 + 1 + S n + 4, Some (take (S n) s3))
              end
          end
      end
  end.

End Extract.

(* ------------------------------------------------------------------ *)
(** ** Python dictionaries, in insertion order *)

Module PyDict.

Section Dict.

Context {V : Type}.

Definition t : Type := list (string * V).

(** [d.get(k)] *)
Fixpoint get (k : string) (d : t) : option V :=
  match d with
  | [] => None
  | (k', v) :: d' => if String.eqb k k' then Some v else get k d'
  end.

(** [k in d] *)
Definition mem (k : string) (d : t) : bool :=
  match get k d with Some _ => true | None => false end.

(** [d[k] = v]: an existing key keeps its place, a new key goes last. *)
Fixpoint set (k : string) (v : V) (d : t) : t :=
  match d with
  | [] => [(k, v)]
  | (k', v') :: d' =>
      if String.eqb k k' then (k', v) :: d' else (k', v') :: set k v d'
  end.

(** [del d[k]], for a key that is present (the only use is guarded by
    [k in d]).  A dictionary has each key once; on a list that repeats
    a key, [get] sees its first entry and [del] removes them all, so the
    list stands for the dictionary of its first entries. *)
Fixpoint del (k : string) (d : t) : t :=
  match d with
  | [] => []
  | (k', v') :: d' =>
      if String.eqb k k' then del k d' else (k', v') :: del k d'
  end.

(** [list(d.keys())] *)
Definition keys (d : t) : list string := map fst d.

(** [next(iter(d)) if d else None] *)
Definition first_key (d : t) : option string :=
  match d with
  | [] => None
  | (k, _) :: _ => Some k
  end.

End Dict.

Arguments t : clear implicits.

End PyDict.

(* ------------------------------------------------------------------ *)
(** ** Python values and exceptions *)

Module Py.

(** A float is kept as its decimal literal: [(m, e)] is [m * 10 ^ e]. *)
Definition float : Type := (Z * Z)%type.

(** Values that [json] produces and the result dictionaries hold. *)
#[local] Unset Elimination Schemes.
Inductive value : Type :=
| VNone
| VBool (b : bool)
| VInt (z : Z)
| VFloat (f : float)
| VStr (s : string)
| VList (l : list value)
| VDict (d : list (string * value)).
#[local] Set Elimination Schemes.

Definition type_name (v : value) : string :=
  match v with
  | VNone => "NoneType"
  | VBool _ => "bool"
  | VInt _ => "int"
  | VFloat _ => "float"
  | VStr _ => "str"
  | VList _ => "list"
  | VDict _ => "dict"
  end.

(** Exception classes that occur.  [str(e)] is [exn_msg]; the wording of
    the interpreter's own messages is CPython's and no statement below
    depends on it. *)
Inductive exn_class : Type :=
| Timeout | ConnectionError | HTTPError | JSONDecodeError
| RequestException
| ValueError | TypeError | AttributeError | IndexError | KeyError
| OSError | OtherException.

Record exn : Type := { exn_cls : exn_class; exn_msg : string }.

(** [isinstance(e, requests.exceptions.RequestException)]; the
    [JSONDecodeError] is the one [Response.json] raises. *)
Definition is_request_exception (c : exn_class) : bool :=
  match c with
  | Timeout | ConnectionError | HTTPError | JSONDecodeError
  | RequestException => true
  | _ => false
  end.

Inductive outcome (A : Type) : Type :=
| Ret (a : A)
| Raise (e : exn).

Arguments Ret {A} a.
Arguments Raise {A} e.

Definition bind {A B : Type} (m : outcome A) (f : A -> outcome B) : outcome B :=
  match m with
  | Ret a => f a
  | Raise e => Raise e
  end.

Notation "x <- m ;; f" := (bind m (fun x => f))
  (at level 61, m at next level, right associativity).

Definition raise {A : Type} (c : exn_class) (msg : string) : outcome A :=
  Raise {| exn_cls := c; exn_msg := msg |}.

(** [{"error": msg}] *)
Definition error_dict (msg : string) : PyDict.t value := [("error", VStr msg)].

Definition value_is_error_str (v : value) : bool :=
  match v with
  | VStr s => String.eqb s "error"
  | _ => false
  end.

(** ["error" in v] *)
Definition has_error (v : value) : outcome bool :=
  match v with
  | VDict d => Ret (PyDict.mem "error" d)
  | VList l => Ret (existsb value_is_error_str l)
  | VStr s => Ret (Str.contains "error" s)
  | _ => raise TypeError
           ("argument of type '" ++ type_name v ++ "' is not iterable")
  end.

(** [v.get(k, default)] *)
Definition get (v : value) (k : string) (default : value) : outcome value :=
  match v with
  | VDict d =>
      match PyDict.get k d with
      | Some x => Ret x
      | None => Ret default
      end
  | _ => raise AttributeError
           ("'" ++ type_name v ++ "' object has no attribute 'get'")
  end.

(** [v[0]] *)
Definition index0 (v : value) : outcome value :=
  match v with
  | VList (x :: _) => Ret x
  | VList [] => raise IndexError "list index out of range"
  | VStr (String c _) => Ret (VStr (String c ""))
  | VStr EmptyString => raise IndexError "string index out of range"
  | VDict _ => raise KeyError "0"
  | _ => raise TypeError
           ("'" ++ type_name v ++ "' object is not subscriptable")
  end.

End Py.

(* ------------------------------------------------------------------ *)
(** ** [api_connector.py] *)

Module ApiConnector.

Import Str Py.

(** What [requests.Session.request] is called with. *)
Record request : Type := {
  req_method : string;
  req_url : string;
  req_json : option value;
  req_headers : PyDict.t string;
  req_params : option (PyDict.t string);
  req_timeout : Z
}.

(** What it returns: the status line, the final URL and what
    [response.json()] does with the body. *)
Record response : Type := {
  status_code : Z;
  reason : string;
  resp_url : string;
  resp_json : outcome value
}.

(** The network: given the requests sent so far and the next one, the
    session either raises or returns a response. *)
Definition network : Type := list request -> request -> outcome response.

(** [Response.raise_for_status]: the message is set for a status from
    400 to 599 only, and the exception is raised when it is set. *)
Definition http_error_msg (r : response) : string :=
  if (400 <=? status_code r)%Z && (status_code r <? 500)%Z then
    of_Z (status_code r) ++ " Client Error: " ++ reason r
    ++ " for url: " ++ resp_url r
  else if (500 <=? status_code r)%Z && (status_code r <? 600)%Z then
    of_Z (status_code r) ++ " Server Error: " ++ reason r
    ++ " for url: " ++ resp_url r
  else "".

Definition raise_for_status (r : response) : outcome unit :=
  if truthy (http_error_msg r) then raise HTTPError (http_error_msg r)
  else Ret tt.

(** A failed exchange and its detail: the session raised a timeout or a
    transport error, or it answered with a status from 400 to 599. *)
Inductive failed : outcome response -> string -> Prop :=
| failed_timeout (msg : string) : failed (raise Timeout msg) msg
| failed_transport (msg : string) : failed (raise ConnectionError msg) msg
| failed_status (r : response) :
    (400 <= status_code r < 600)%Z -> failed (Ret r) (http_error_msg r).

(** The text of [base] up to and including its last slash. *)
Fixpoint dir_of (base : string) : string :=
  match base with
  | EmptyString => EmptyString
  | String c b' =>
      if contains "/" b' then String c (dir_of b')
      else if Ascii.eqb c "/"%char then String c EmptyString
      else EmptyString
  end.

(** [urljoin(base, endpoint)] for the calls made here: the base has a
    path of one segment and no trailing slash, the endpoint is a
    relative path, so the endpoint replaces the last segment. *)
Definition urljoin (base endpoint : string) : string :=
  if truthy endpoint then dir_of base ++ endpoint else base.

Inductive provider : Type := DeepSeek | Gemini | OpenAI | Grok | Claude.

(** An [APIConnector] object: its class and the two fields of
    [__init__] (the [requests.Session] is the network below). *)
Record connector : Type := {
  cls : provider;
  api_key : string;
  base_url : string
}.

Definition DeepSeekConnector (key : string) : connector :=
  {| cls := DeepSeek; api_key := key; base_url := "https://api.deepseek.com/v1" |}.
Definition GeminiConnector (key : string) : connector :=
  {| cls := Gemini; api_key := key;
     base_url := "https://generativelanguage.googleapis.com/v1" |}.
Definition OpenAIConnector (key : string) : connector :=
  {| cls := OpenAI; api_key := key; base_url := "https://api.openai.com/v1" |}.
Definition GrokConnector (key : string) : connector :=
  {| cls := Grok; api_key := key; base_url := "https://api.grok.com/v1" |}.
Definition ClaudeConnector (key : string) : connector :=
  {| cls := Claude; api_key := key; base_url := "https://api.anthropic.com/v1" |}.

Section Network.

Variable net : network.

(** [APIConnector._make_request]: the request is logged, the session is
    asked, and a [RequestException] raised by the session, by
    [raise_for_status] or by [json] becomes [{"error": str(e)}]; any
    other exception propagates. *)
Definition _make_request (self : connector) (method endpoint : string)
    (data : option value) (headers : option (PyDict.t string))
    (params : option (PyDict.t string)) (log : list request)
  : outcome value * list request :=
  let url := urljoin (base_url self) endpoint in
  let headers := match headers with Some h => h | None => [] end in
  let rq := {| req_method := method; req_url := url; req_json := data;
               req_headers := headers; req_params := params;
               req_timeout := 30%Z |} in
  let attempt :=
    response <- net log rq ;;
    _ <- raise_for_status response ;;
    resp_json response in
  let result :=
    match attempt with
    | Ret v => Ret v
    | Raise e =>
        if is_request_exception (exn_cls e)
        then Ret (VDict (error_dict (exn_msg e)))
        else Raise e
    end in
  (result, (log ++ [rq])%list).

(** [re.findall] and [re.sub] accept a [str] only. *)
Definition as_text (v : value) : outcome string :=
  match v with
  | VStr s => Ret s
  | _ => raise TypeError
           ("expected string or bytes-like object, got '" ++ type_name v ++ "'")
  end.

(** The tail common to the five [generate_code] methods, from
    [if "error" in response] on; [content_of] is the provider's path to
    the generated text. *)
Definition process (content_of : value -> outcome value) (response : value)
  : outcome value :=
  err <- has_error response ;;
  if (err : bool) then Ret response
  else
    match (c <- content_of response ;; as_text c) with
    | Ret content =>
        let '(code, explanation) := Extract.extract content in
        Ret (VDict [("code", VStr code); ("explanation", VStr explanation)])
    | Raise e =>
        Ret (VDict (error_dict ("Failed to process response: " ++ exn_msg e)))
    end.

(** [response.get("choices", [{}])[0].get("message", {}).get("content", "")] *)
Definition choices_content (response : value) : outcome value :=
  a <- get response "choices" (VList [VDict []]) ;;
  b <- index0 a ;;
  c <- get b "message" (VDict []) ;;
  get c "content" (VStr "").

(** [response.get("candidates", [{}])[0].get("content", {}).get("parts", [{}])[0].get("text", "")] *)
Definition candidates_content (response : value) : outcome value :=
  a <- get response "candidates" (VList [VDict []]) ;;
  b <- index0 a ;;
  c <- get b "content" (VDict []) ;;
  d <- get c "parts" (VList [VDict []]) ;;
  e <- index0 d ;;
  get e "text" (VStr "").

(** [response.get("content", [{}])[0].get("text", "")] *)
Definition blocks_content (response : value) : outcome value :=
  a <- get response "content" (VList [VDict []]) ;;
  b <- index0 a ;;
  get b "text" (VStr "").

Definition bearer_headers (key : string) : PyDict.t string :=
  [("Content-Type", "application/json"); ("Authorization", "Bearer " ++ key)].

Definition chat_data (model prompt : string) (temperature : float) : value :=
  VDict [("model", VStr model);
         ("messages", VList [VDict [("role", VStr "user"); ("content", VStr prompt)]]);
         ("temperature", VFloat temperature)].

(** The three connectors that speak the chat-completions format differ
    in the default model only. *)
Definition chat_generate_code (self : connector) (prompt model : string)
    (temperature : float) (log : list request) : outcome value * list request :=
  let headers := bearer_headers (api_key self) in
  let data := chat_data model prompt temperature in
  let '(response, log') :=
    _make_request self "POST" "chat/completions" (Some data) (Some headers) None log in
  (r <- response ;; process choices_content r, log').

Definition gemini_generate_code (self : connector) (prompt model : string)
    (temperature : float) (log : list request) : outcome value * list request :=
  let headers := [("Content-Type", "application/json")] in
  let data :=
    VDict [("contents", VList [VDict [("parts", VList [VDict [("text", VStr prompt)]])]]);
           ("generationConfig", VDict [("temperature", VFloat temperature)])] in
  let params := [("key", api_key self)] in
  let endpoint := "models/" ++ model ++ ":generateContent" in
  let '(response, log') :=
    _make_request self "POST" endpoint (Some data) (Some headers) (Some params) log in
  (r <- response ;; process candidates_content r, log').

Definition claude_generate_code (self : connector) (prompt model : string)
    (temperature : float) (log : list request) : outcome value * list request :=
  let headers :=
    [("Content-Type", "application/json"); ("x-api-key", api_key self);
     ("anthropic-version", "2023-06-01")] in
  let data := chat_data model prompt temperature in
  let '(response, log') :=
    _make_request self "POST" "messages" (Some data) (Some headers) None log in
  (r <- response ;; process blocks_content r, log').

Definition default_model (p : provider) : string :=
  match p with
  | DeepSeek => "deepseek-coder"
  | Gemini => "gemini-pro-code"
  | OpenAI => "gpt-5"
  | Grok => "grok-2"
  | Claude => "claude-3-opus"
  end.

(** [connector.generate_code(prompt, temperature=temperature)], by the
    class of the object. *)
Definition generate_code (self : connector) (prompt : string)
    (temperature : float) (log : list request) : outcome value * list request :=
  match cls self with
  | DeepSeek | OpenAI | Grok =>
      chat_generate_code self prompt (default_model (cls self)) temperature log
  | Gemini => gemini_generate_code self prompt (default_model Gemini) temperature log
  | Claude => claude_generate_code self prompt (default_model Claude) temperature log
  end.

End Network.

(** The names the factory knows. *)
Definition provider_ids : list string :=
  ["model1"; "model2"; "model3"; "model4"; "model5"].

(** [AIModelFactory.create_connector] *)
Definition create_connector (model_name key : string) : outcome connector :=
  if String.eqb model_name "model1" then Ret (DeepSeekConnector key)
  else if String.eqb model_name "model2" then Ret (GeminiConnector key)
  else if String.eqb model_name "model3" then Ret (OpenAIConnector key)
  else if String.eqb model_name "model4" then Ret (GrokConnector key)
  else if String.eqb model_name "model5" then Ret (ClaudeConnector key)
  else raise ValueError ("Unknown model: " ++ model_name).

End ApiConnector.

(* ------------------------------------------------------------------ *)
(** ** [model_manager.py] *)

Module ModelManager.

Import Str Py.

(** What the manager needs of the connector module: the factory and
    the [generate_code] method of the objects it stores.  [W] is
    whatever the connectors act on. *)
Class ConnectorAPI (C W : Type) : Type := {
  create_connector : string -> string -> outcome C;
  connector_generate_code : C -> string -> float -> W -> outcome value * W
}.

(** The connectors of [api_connector.py] over a network, acting on the
    log of requests. *)
Definition api_connector (net : ApiConnector.network)
  : ConnectorAPI ApiConnector.connector (list ApiConnector.request) :=
  {| create_connector := ApiConnector.create_connector;
     connector_generate_code := ApiConnector.generate_code net |}.

Section Manager.

Context {C W : Type} {API : ConnectorAPI C W}.

(** The fields of a [ModelManager]. *)
Record t : Type := {
  api_keys : PyDict.t string;
  connectors : PyDict.t C;
  active_model : option string
}.

(** [__init__] *)
Definition init : t :=
  {| api_keys := []; connectors := []; active_model := None |}.

Definition with_api_keys (self : t) (k : PyDict.t string) : t :=
  {| api_keys := k; connectors := connectors self;
     active_model := active_model self |}.
Definition with_connectors (self : t) (c : PyDict.t C) : t :=
  {| api_keys := api_keys self; connectors := c;
     active_model := active_model self |}.
Definition with_active_model (self : t) (a : option string) : t :=
  {| api_keys := api_keys self; connectors := connectors self;
     active_model := a |}.

(** [self.active_model == model_name] *)
Definition active_is (self : t) (model_name : string) : bool :=
  match active_model self with
  | Some a => String.eqb a model_name
  | None => false
  end.

(** [set_api_key]: the key is stored first; the factory is called for
    a non-empty key, and its exception is caught and reported as
    [False] with the state as it is at that point. *)
Definition set_api_key (model_name key : string) (self : t) : bool * t :=
  let self := with_api_keys self (PyDict.set model_name key (api_keys self)) in
  if truthy key then
    match create_connector model_name key with
    | Ret c =>
        let self := with_connectors self (PyDict.set model_name c (connectors self)) in
        let self :=
          match active_model self with
          | None => with_active_model self (Some model_name)
          | Some _ => self
          end in
        (true, self)
    | Raise _ => (false, self)
    end
  else
    let self :=
      if PyDict.mem model_name (connectors self)
      then with_connectors self (PyDict.del model_name (connectors self))
      else self in
    let self :=
      if active_is self model_name
      then with_active_model self (PyDict.first_key (connectors self))
      else self in
    (true, self).

(** [set_active_model] *)
Definition set_active_model (model_name : string) (self : t) : bool * t :=
  if PyDict.mem model_name (connectors self)
  then (true, with_active_model self (Some model_name))
  else (false, self).

Definition get_active_model (self : t) : option string := active_model self.

Definition get_available_models (self : t) : list string :=
  PyDict.keys (connectors self).

(** Truthiness of an optional [str]. *)
Definition truthy_opt (o : option string) : bool :=
  match o with
  | Some s => truthy s
  | None => false
  end.

Definition no_code : string := "// No code generated".
Definition no_explanation : string := "No explanation provided".

(** [result["model"] = ...] and the two defaults, on the dictionary the
    connector returned. *)
Definition enrich (model_to_use : string) (result : PyDict.t value)
  : PyDict.t value :=
  let result := PyDict.set "model" (VStr model_to_use) result in
  let result :=
    if PyDict.mem "code" result then result
    else PyDict.set "code" (VStr no_code) result in
  let result :=
    if PyDict.mem "explanation" result then result
    else PyDict.set "explanation" (VStr no_explanation) result in
  result.

(** The message of the [TypeError] of [v["model"] = ...] when [v] is
    not a dictionary. *)
Definition setitem_error (v : value) : string :=
  match v with
  | VList _ => "list indices must be integers or slices, not str"
  | _ => "'" ++ type_name v ++ "' object does not support item assignment"
  end.

(** [generate_code]: the result, the manager afterwards (no field is
    assigned) and what the connector left of [w].  A connector result
    that is not a dictionary fails at the item assignment, inside the
    [try]. *)
Definition generate_code (prompt : string) (model_name : option string)
    (temperature : float) (self : t) (w : W) : PyDict.t value * t * W :=
  let model_to_use :=
    if truthy_opt model_name then model_name else active_model self in
  match model_to_use with
  | Some m =>
      if truthy m then
        match PyDict.get m (connectors self) with
        | None => (error_dict ("Model " ++ m ++ " not available"), self, w)
        | Some connector =>
            let '(result, w') :=
              connector_generate_code connector prompt temperature w in
            match result with
            | Ret (VDict d) => (enrich m d, self, w')
            | Ret v =>
                (error_dict ("Failed to generate code: " ++ setitem_error v),
                 self, w')
            | Raise e =>
                (error_dict ("Failed to generate code: " ++ exn_msg e), self, w')
            end
        end
      else (error_dict "No active model set", self, w)
  | None => (error_dict "No active model set", self, w)
  end.

Definition generate_documentation (code : string) (model_name : option string)
    (temperature : float) (self : t) (w : W) : PyDict.t value * t * W :=
  let prompt :=
    "Generate comprehensive documentation for the following code:" ++ nl
    ++ nl ++ "```" ++ nl ++ code ++ nl ++ "```" ++ nl ++ nl
    ++ "Please include:" ++ nl ++ "1. Overview of what the code does" ++ nl
    ++ "2. Function/class descriptions" ++ nl ++ "3. Parameter explanations"
    ++ nl ++ "4. Return value descriptions" ++ nl ++ "5. Usage examples" in
  generate_code prompt model_name temperature self w.

Definition generate_tests (code : string) (model_name : option string)
    (temperature : float) (self : t) (w : W) : PyDict.t value * t * W :=
  let prompt :=
    "Generate comprehensive test cases for the following code:" ++ nl ++ nl
    ++ "```" ++ nl ++ code ++ nl ++ "```" ++ nl ++ nl ++ "Please include:"
    ++ nl ++ "1. Unit tests for all functions/methods" ++ nl
    ++ "2. Edge case tests" ++ nl ++ "3. Integration tests if applicable"
    ++ nl ++ "4. Test setup and teardown code" in
  generate_code prompt model_name temperature self w.

Definition fix_bugs (code error_message : string) (model_name : option string)
    (temperature : float) (self : t) (w : W) : PyDict.t value * t * W :=
  let prompt :=
    "Fix the bugs in the following code that is producing this error:" ++ nl
    ++ nl ++ "Error: " ++ error_message ++ nl ++ nl ++ "Code:" ++ nl ++ "```"
    ++ nl ++ code ++ nl ++ "```" ++ nl ++ nl ++ "Please provide:" ++ nl
    ++ "1. The fixed code" ++ nl ++ "2. An explanation of what was wrong"
    ++ nl ++ "3. How the fix resolves the issue" in
  generate_code prompt model_name temperature self w.

Definition optimize_code (code optimization_goal : string)
    (model_name : option string) (temperature : float) (self : t) (w : W)
  : PyDict.t value * t * W :=
  let prompt :=
    "Optimize the following code for " ++ optimization_goal ++ ":" ++ nl
    ++ nl ++ "```" ++ nl ++ code ++ nl ++ "```" ++ nl ++ nl
    ++ "Please provide:" ++ nl ++ "1. The optimized code" ++ nl
    ++ "2. An explanation of the optimizations made" ++ nl
    ++ "3. The expected improvements" in
  generate_code prompt model_name temperature self w.

(** The file system, as far as the key file goes: a file holds the
    dictionary [json.dump] wrote. *)
Definition files : Type := PyDict.t (PyDict.t string).

(** [os.path.dirname(file_path)] is empty exactly when the path has no
    slash, and [os.makedirs] of the empty path raises. *)
Definition has_dirname (file_path : string) : bool := contains "/" file_path.

(** [save_api_keys]; [writable] says whether creating the directory and
    opening the file for writing succeed. *)
Definition save_api_keys (writable : string -> bool) (file_path : string)
    (self : t) (fs : files) : bool * files :=
  if has_dirname file_path && writable file_path
  then (true, PyDict.set file_path (api_keys self) fs)
  else (false, fs).

(** [load_api_keys]: each stored pair is replayed through [set_api_key]
    in file order, whatever the calls return. *)
Definition load_api_keys (file_path : string) (self : t) (fs : files) : bool * t :=
  match PyDict.get file_path fs with
  | None => (false, self)
  | Some keys =>
      (true, fold_left (fun st kv => snd (set_api_key (fst kv) (snd kv) st)) keys self)
  end.

(** The active model, when set, is a key of [connectors]. *)
Definition active_available (self : t) : Prop :=
  forall a, active_model self = Some a -> PyDict.mem a (connectors self) = true.

(** No active model only when no connector is stored. *)
Definition some_active (self : t) : Prop :=
  active_model self = None -> connectors self = [].

(** The public operations, to speak of every call and of every state a
    manager can get into. *)
Inductive capability : Type :=
| GenerateCode (prompt : string)
| GenerateDocumentation (code : string)
| GenerateTests (code : string)
| FixBugs (code error_message : string)
| OptimizeCode (code optimization_goal : string).

Definition perform (c : capability) (model_name : option string)
    (temperature : float) (self : t) (w : W) : PyDict.t value * t * W :=
  match c with
  | GenerateCode prompt => generate_code prompt model_name temperature self w
  | GenerateDocumentation code =>
      generate_documentation code model_name temperature self w
  | GenerateTests code => generate_tests code model_name temperature self w
  | FixBugs code error_message =>
      fix_bugs code error_message model_name temperature self w
  | OptimizeCode code optimization_goal =>
      optimize_code code optimization_goal model_name temperature self w
  end.

Inductive op : Type :=
| SetApiKey (model_name key : string)
| SetActiveModel (model_name : string)
| LoadApiKeys (file_path : string) (fs : files)
| Perform (c : capability) (model_name : option string) (temperature : float).

Definition step (st : t * W) (o : op) : t * W :=
  let '(self, w) := st in
  match o with
  | SetApiKey model_name key => (snd (set_api_key model_name key self), w)
  | SetActiveModel model_name => (snd (set_active_model model_name self), w)
  | LoadApiKeys file_path fs => (snd (load_api_keys file_path self fs), w)
  | Perform c model_name temperature =>
      let '(_, self', w') := perform c model_name temperature self w in
      (self', w')
  end.

(** The manager after a sequence of calls on a fresh one. *)
Definition run (ops : list op) (w : W) : t * W := fold_left step ops (init, w).

End Manager.

Arguments t : clear implicits.

End ModelManager.

(* ------------------------------------------------------------------ *)
(** ** [ai_integration.py]: the thin-wrapper front-end *)

Module AIIntegration.

Import Str Py.

(** One entry of [AI_MODELS]. *)
Record model_info : Type := {
  name : string;
  api_key : option string;
  endpoint : string;
  models : PyDict.t string
}.

Definition AI_MODELS : PyDict.t model_info :=
  [("model1",
    {| name := "Model 1"; api_key := None;
       endpoint := "https://api.deepseek.com/v1";
       models := [("code", "deepseek-coder"); ("chat", "deepseek-chat");
                  ("vision", "deepseek-vision")] |});
   ("model2",
    {| name := "Model 2"; api_key := None;
       endpoint := "https://generativelanguage.googleapis.com/v1";
       models := [("code", "gemini-pro-code"); ("chat", "gemini-pro");
                  ("vision", "gemini-pro-vision")] |});
   ("model3",
    {| name := "Model 3"; api_key := None;
       endpoint := "https://api.openai.com/v1";
       models := [("code", "gpt-5"); ("chat", "gpt-5");
                  ("vision", "gpt-5-vision")] |});
   ("model4",
    {| name := "Model 4"; api_key := None;
       endpoint := "https://api.grok.com/v1";
       models := [("code", "grok-2"); ("chat", "grok-2");
                  ("vision", "grok-2-vision")] |});
   ("model5",
    {| name := "Model 5"; api_key := None;
       endpoint := "https://api.anthropic.com/v1";
       models := [("code", "claude-3-opus"); ("chat", "claude-3-opus");
                  ("vision", "claude-3-opus")] |})].

(** An [AIIntegration] object is its [models] table.  ([copy()] is
    shallow, so the entries are those of the module-level table; one
    object at a time is modelled.) *)
Definition t : Type := PyDict.t model_info.

Definition with_key (info : model_info) (key : string) : model_info :=
  {| name := name info; api_key := Some key; endpoint := endpoint info;
     models := models info |}.

(** [set_api_key] *)
Definition set_api_key (model_name key : string) (self : t) : bool * t :=
  match PyDict.get model_name self with
  | None => (false, self)
  | Some info => (true, PyDict.set model_name (with_key info key) self)
  end.

(** [__init__] *)
Definition init (keys : option (PyDict.t string)) : t :=
  match keys with
  | Some ks =>
      fold_left (fun self kv => snd (set_api_key (fst kv) (snd kv) self)) ks AI_MODELS
  | None => AI_MODELS
  end.

Definition has_key (info : model_info) : bool :=
  match api_key info with
  | Some k => truthy k
  | None => false
  end.

(** The canned reply of the five [_call_modelN_api] methods. *)
Definition sample_code (vendor : string) : string :=
  "// Generated code using " ++ vendor ++ nl ++ nl ++ "function example() {"
  ++ nl ++ "  console.log('Hello, world!');" ++ nl
  ++ "  // Implementation based on requirements" ++ nl ++ "}" ++ nl ++ nl
  ++ "example();".

Definition sample_reply (vendor api mode : string) : value :=
  if String.eqb mode "code" then
    VDict [("code", VStr (sample_code vendor));
           ("explanation",
            VStr "This code implements a basic solution based on your requirements.")]
  else
    VDict [("content", VStr ("This is a sample response from the " ++ api ++ " API."))].

(** [_call_modelN_api]: the two subscripts can raise [KeyError]; the
    headers and the payload are built and dropped, no request is made. *)
Definition call_api (id vendor api : string) (self : t) (prompt mode : string)
  : outcome value :=
  match PyDict.get id self with
  | None => raise KeyError ("'" ++ id ++ "'")
  | Some info =>
      match PyDict.get mode (models info) with
      | None => raise KeyError ("'" ++ mode ++ "'")
      | Some model => Ret (sample_reply vendor api mode)
      end
  end.

Definition _call_model1_api := call_api "model1" "DeepSeek" "DeepSeek".
Definition _call_model2_api := call_api "model2" "Gemini" "Gemini".
Definition _call_model3_api := call_api "model3" "ChatGPT-5" "OpenAI".
Definition _call_model4_api := call_api "model4" "Grok" "Grok".
Definition _call_model5_api := call_api "model5" "Claude" "Anthropic".

(** [except Exception as e: return {"error": f"Failed to ...: {str(e)}"}] *)
Definition caught (what : string) (called : outcome value) : value :=
  match called with
  | Ret v => v
  | Raise e => VDict (error_dict ("Failed to " ++ what ++ ": " ++ exn_msg e))
  end.

(** The dispatch written out in [generate_code], [generate_documentation],
    [generate_tests] and [fix_bugs], inside their [try]. *)
Definition dispatch (what : string) (self : t) (model_name prompt mode : string)
  : value :=
  caught what
    (if String.eqb model_name "model1" then _call_model1_api self prompt mode
     else if String.eqb model_name "model2" then _call_model2_api self prompt mode
     else if String.eqb model_name "model3" then _call_model3_api self prompt mode
     else if String.eqb model_name "model4" then _call_model4_api self prompt mode
     else if String.eqb model_name "model5" then _call_model5_api self prompt mode
     else Ret (VDict (error_dict ("API integration not implemented for "
                                  ++ model_name)))).

(** Each provider of the closed set with its method. *)
Definition api_methods : list (string * (t -> string -> string -> outcome value)) :=
  [("model1", _call_model1_api); ("model2", _call_model2_api);
   ("model3", _call_model3_api); ("model4", _call_model4_api);
   ("model5", _call_model5_api)].

(** The prompts of the five operations. *)
Definition code_prompt (language framework_text requirements test_text doc_text optimize_text : string) : string :=
  "Generate " ++ language ++ " code" ++ framework_text
  ++ " that meets these requirements:" ++ nl ++ requirements ++ test_text
  ++ doc_text ++ optimize_text.

Definition documentation_prompt (doc_format language code : string) : string :=
  "Generate comprehensive documentation in " ++ doc_format
  ++ " format for the following " ++ language ++ " code:" ++ nl ++ "```"
  ++ language ++ nl ++ code ++ nl ++ "```" ++ nl ++ nl ++ "Include:"
  ++ nl ++ "1. Overview of what the code does" ++ nl
  ++ "2. Explanation of key functions and classes" ++ nl
  ++ "3. Usage examples" ++ nl ++ "4. Parameters and return values" ++ nl
  ++ "5. Any dependencies or requirements".

Definition tests_prompt (framework_text language code : string) : string :=
  "Generate comprehensive test cases" ++ framework_text
  ++ " for the following " ++ language ++ " code:" ++ nl ++ "```"
  ++ language ++ nl ++ code ++ nl ++ "```" ++ nl ++ nl ++ "Include:"
  ++ nl ++ "1. Unit tests for all functions and methods" ++ nl
  ++ "2. Edge case testing" ++ nl ++ "3. Integration tests if applicable"
  ++ nl ++ "4. Test setup and teardown code".

Definition bugs_prompt (language error_message code : string) : string :=
  "Fix the bugs in the following " ++ language
  ++ " code based on the error message:" ++ nl ++ nl ++ "Error: "
  ++ error_message ++ nl ++ nl ++ "Code:" ++ nl ++ "```" ++ language
  ++ nl ++ code ++ nl ++ "```" ++ nl ++ nl ++ "Provide:" ++ nl
  ++ "1. The fixed code" ++ nl ++ "2. An explanation of what was wrong"
  ++ nl ++ "3. How the fix resolves the issue".

Definition optimize_prompt (language optimization_target code : string) : string :=
  "Optimize the following " ++ language ++ " code for "
  ++ optimization_target ++ ":" ++ nl ++ "```" ++ language ++ nl ++ code
  ++ nl ++ "```" ++ nl ++ nl ++ "Provide:" ++ nl
  ++ "1. The optimized code" ++ nl
  ++ "2. An explanation of the optimizations made" ++ nl
  ++ "3. The expected improvements in " ++ optimization_target.

(** The two checks every operation starts with. *)
Definition guarded (self : t) (model_name : string) (body : model_info -> value)
  : value :=
  match PyDict.get model_name self with
  | None => VDict (error_dict ("Unknown model: " ++ model_name))
  | Some info =>
      if has_key info then body info
      else VDict (error_dict ("No API key provided for " ++ name info))
  end.

(** [framework and framework != "none"] *)
Definition named (framework : option string) : option string :=
  match framework with
  | Some f => if truthy f && negb (String.eqb f "none") then Some f else None
  | None => None
  end.

Definition generate_code (self : t) (model_name requirements language : string)
    (framework : option string) (include_tests include_docs optimize : bool)
  : value :=
  guarded self model_name (fun _ =>
    let framework_text :=
      match named framework with
      | Some f => " using the " ++ f ++ " framework"
      | None => ""
      end in
    let test_text :=
      if include_tests then nl ++ "Include comprehensive tests for the code." else "" in
    let doc_text :=
      if include_docs then nl ++ "Include detailed documentation and comments." else "" in
    let optimize_text :=
      if optimize then nl ++ "Optimize the code for performance and efficiency." else "" in
    let prompt := code_prompt language framework_text requirements test_text doc_text optimize_text in
    dispatch "generate code" self model_name prompt "code").

Definition generate_documentation (self : t) (model_name code language : string)
    (doc_format : string) : value :=
  guarded self model_name (fun _ =>
    let prompt := documentation_prompt doc_format language code in
    dispatch "generate documentation" self model_name prompt "chat").

Definition generate_tests (self : t) (model_name code language : string)
    (test_framework : option string) : value :=
  guarded self model_name (fun _ =>
    let framework_text :=
      match named test_framework with
      | Some f => " using the " ++ f ++ " testing framework"
      | None => ""
      end in
    let prompt := tests_prompt framework_text language code in
    dispatch "generate tests" self model_name prompt "code").

Definition fix_bugs (self : t) (model_name code error_message language : string)
  : value :=
  guarded self model_name (fun _ =>
    let prompt := bugs_prompt language error_message code in
    dispatch "fix bugs" self model_name prompt "code").

(** [optimize_code] tests the names "deepseek", "gemini", "chatgpt",
    "grok" and "claude" and calls [_call_deepseek_api] and the like,
    methods the class does not have. *)
Definition optimize_code (self : t) (model_name code language : string)
    (optimization_target : string) : value :=
  guarded self model_name (fun _ =>
    let prompt := optimize_prompt language optimization_target code in
    let missing (method : string) : value :=
      VDict (error_dict ("Failed to optimize code: 'AIIntegration' object has no attribute '"
                         ++ method ++ "'")) in
    if String.eqb model_name "deepseek" then missing "_call_deepseek_api"
    else if String.eqb model_name "gemini" then missing "_call_gemini_api"
    else if String.eqb model_name "chatgpt" then missing "_call_openai_api"
    else if String.eqb model_name "grok" then missing "_call_grok_api"
    else if String.eqb model_name "claude" then missing "_call_anthropic_api"
    else VDict (error_dict ("API integration not implemented for " ++ model_name))).

(** One entry of what [get_available_models] returns. *)
Record listing : Type := {
  listed_id : string;
  listed_name : string;
  capabilities : list string
}.

(** [get_available_models]: the models whose key is truthy, in table
    order. *)
Definition get_available_models (self : t) : list listing :=
  flat_map
    (fun entry : string * model_info =>
       let '(model_id, info) := entry in
       if has_key info
       then [{| listed_id := model_id; listed_name := name info;
                capabilities := PyDict.keys (models info) |}]
       else [])
    self.

End AIIntegration.

(* ------------------------------------------------------------------ *)
(** ** The wrapper in use: the objects one can build, the calls one can
       make *)

Module Wrapper.

Import Str Py AIIntegration.

(** The object made by [AIIntegration(keys)] followed by the given
    [set_api_key] calls. *)
Definition after (keys : option (PyDict.t string)) (calls : list (string * string))
  : AIIntegration.t :=
  fold_left (fun self kv => snd (set_api_key (fst kv) (snd kv) self))
    calls (init keys).

(** Every key given for a name, oldest first. *)
Definition given (keys : option (PyDict.t string)) (calls : list (string * string))
  : list (string * string) :=
  (match keys with Some ks => ks | None => [] end ++ calls)%list.

(** The last key given for [model_name]. *)
Definition last_key (model_name : string) (l : list (string * string))
  : option string :=
  fold_left
    (fun acc kv => if String.eqb (fst kv) model_name then Some (snd kv) else acc)
    l None.

Definition key_is_set (o : option string) : bool :=
  match o with
  | Some k => truthy k
  | None => false
  end.

(** Every entry of [self] holds the key [a] gives for its name. *)
Definition tracks (self : AIIntegration.t) (a : string -> option string) : Prop :=
  forall m info, PyDict.get m self = Some info -> api_key info = a m.

(** The five operations with their arguments. *)
Inductive operation : Type :=
| Code (requirements language : string) (framework : option string)
       (include_tests include_docs optimize : bool)
| Documentation (code language doc_format : string)
| Tests (code language : string) (test_framework : option string)
| Bugs (code error_message language : string)
| Optimize (code language optimization_target : string).

Definition serve (self : AIIntegration.t) (model_name : string) (o : operation)
  : value :=
  match o with
  | Code requirements language framework include_tests include_docs optimize =>
      generate_code self model_name requirements language framework
        include_tests include_docs optimize
  | Documentation code language doc_format =>
      generate_documentation self model_name code language doc_format
  | Tests code language test_framework =>
      generate_tests self model_name code language test_framework
  | Bugs code error_message language =>
      fix_bugs self model_name code error_message language
  | Optimize code language optimization_target =>
      optimize_code self model_name code language optimization_target
  end.

(** The canned replies, by name. *)
Definition canned_code (model_name : string) : value :=
  sample_reply
    (if String.eqb model_name "model1" then "DeepSeek"
     else if String.eqb model_name "model2" then "Gemini"
     else if String.eqb model_name "model3" then "ChatGPT-5"
     else if String.eqb model_name "model4" then "Grok"
     else "Claude")
    "" "code".

Definition canned_chat (model_name : string) : value :=
  sample_reply ""
    (if String.eqb model_name "model1" then "DeepSeek"
     else if String.eqb model_name "model2" then "Gemini"
     else if String.eqb model_name "model3" then "OpenAI"
     else if String.eqb model_name "model4" then "Grok"
     else "Anthropic")
    "chat".

(** The display name of a known model. *)
Definition display_name (model_name : string) : string :=
  match PyDict.get model_name AI_MODELS with
  | Some info => name info
  | None => ""
  end.

(** [model_name in AI_MODELS] *)
Definition known (model_name : string) : bool := PyDict.mem model_name AI_MODELS.

(** The object with every key forgotten. *)
Definition unkeyed (self : AIIntegration.t) : AIIntegration.t :=
  map (fun entry : string * model_info =>
         (fst entry,
          {| name := name (snd entry); api_key := None;
             endpoint := endpoint (snd entry); models := models (snd entry) |}))
    self.

End Wrapper.

(* ------------------------------------------------------------------ *)
(** ** [app.py]: the keys between the page, [localStorage] and the
       manager *)

Module App.

Import Str ModelManager.

(** [localStorage]: item name to string; [getItem] of a missing item
    gives nothing.  (No quota is modelled: [setItem] succeeds.) *)
Definition storage : Type := PyDict.t string.

(** The part of the page [save_api_keys] touches: the [value] of the
    input elements, by element id (no entry, no such element), and the
    [hidden] class of the settings modal (nothing, no such element). *)
Record page : Type := {
  inputs : PyDict.t string;
  modal_hidden : option bool
}.

Section App.

Context {C W : Type} {API : ConnectorAPI C W}.

(** One block of [init_api_keys]. *)
Definition load_item (model_name item : string) (store : storage)
    (manager : ModelManager.t C) : ModelManager.t C :=
  match PyDict.get item store with
  | Some key => if truthy key then snd (set_api_key model_name key manager)
                else manager
  | None => manager
  end.

(** [init_api_keys] *)
Definition init_api_keys (store : storage) (manager : ModelManager.t C)
  : ModelManager.t C :=
  let manager := load_item "model1" "model1_api_key" store manager in
  let manager := load_item "model2" "model2_api_key" store manager in
  let manager := load_item "model3" "model3_api_key" store manager in
  let manager := load_item "model4" "model4_api_key" store manager in
  let manager := load_item "model5" "model5_api_key" store manager in
  manager.

(** One block of [save_api_keys]. *)
Definition save_item (model_name item key : string)
    (st : storage * ModelManager.t C) : storage * ModelManager.t C :=
  if truthy key
  then (PyDict.set item key (fst st), snd (set_api_key model_name key (snd st)))
  else st.

(** [save_api_keys]: the five values are read first, and a missing
    element ends the call there; closing the modal comes last. *)
Definition save_api_keys (pg : page) (store : storage) (manager : ModelManager.t C)
  : page * storage * ModelManager.t C :=
  match PyDict.get "model1-api-key" (inputs pg),
        PyDict.get "model2-api-key" (inputs pg),
        PyDict.get "model3-api-key" (inputs pg),
        PyDict.get "model4-api-key" (inputs pg),
        PyDict.get "model5-api-key" (inputs pg) with
  | Some model1_key, Some model2_key, Some model3_key, Some model4_key,
    Some model5_key =>
      let st := (store, manager) in
      let st := save_item "model1" "model1_api_key" model1_key st in
      let st := save_item "model2" "model2_api_key" model2_key st in
      let st := save_item "model3" "model3_api_key" model3_key st in
      let st := save_item "model4" "model4_api_key" model4_key st in
      let st := save_item "model5" "model5_api_key" model5_key st in
      ({| inputs := inputs pg;
          modal_hidden := match modal_hidden pg with
                          | Some _ => Some true
                          | None => None
                          end |},
       fst st, snd st)
  | _, _, _, _, _ => (pg, store, manager)
  end.

End App.

(** The model, the storage item and the input element of each block. *)
Definition slots : list (string * (string * string)) :=
  [("model1", ("model1_api_key", "model1-api-key"));
   ("model2", ("model2_api_key", "model2-api-key"));
   ("model3", ("model3_api_key", "model3-api-key"));
   ("model4", ("model4_api_key", "model4-api-key"));
   ("model5", ("model5_api_key", "model5-api-key"))].

(** Whether a stored item or a field holds a usable key. *)
Definition usable (o : option string) : bool :=
  match o with
  | Some k => truthy k
  | None => false
  end.

End App.

(* ------------------------------------------------------------------ *)
(** ** Sample data *)

Module Scenario.

Import Str Py ApiConnector.

Definition scenario_text : string :=
  "Here:" ++ nl ++ "```js" ++ nl ++ "function sum(a,b){return a+b;}" ++ nl
  ++ "```" ++ nl ++ "This adds two numbers.".

(** A chat-completions body carrying [content]. *)
Definition chat_reply (content : string) : value :=
  VDict [("choices",
          VList [VDict [("message",
                         VDict [("role", VStr "assistant");
                                ("content", VStr content)])]])].

(** A network that answers every request with the same status and body. *)
Definition answering (status : Z) (body : value) : network :=
  fun _ _ =>
    Ret {| status_code := status; reason := "OK"; resp_url := "";
           resp_json := Ret body |}.

(** A network on which every request times out. *)
Definition timing_out : network := fun _ _ => raise Timeout "timed out".

(** The default [temperature=0.3]. *)
Definition temperature : float := (3, -1)%Z.

End Scenario.

(* ------------------------------------------------------------------ *)
(** ** The wire, per provider: tables to state what is sent and read *)

Module Wire.

Import Str Py ApiConnector.

(** What the [try] of [_make_request] evaluates, given what the session
    does with the request. *)
Definition exchange (o : outcome response) : outcome value :=
  response <- o ;; _ <- raise_for_status response ;; resp_json response.

(** A JSON number, [true], [false] or [null]. *)
Definition scalar (v : value) : bool :=
  match v with
  | VNone | VBool _ | VInt _ | VFloat _ => true
  | VStr _ | VList _ | VDict _ => false
  end.

(** The first key each class looks up in the response. *)
Definition top_key (p : provider) : string :=
  match p with
  | DeepSeek | OpenAI | Grok => "choices"
  | Gemini => "candidates"
  | Claude => "content"
  end.

(** A response body of each provider's shape carrying [text]. *)
Definition reply_for (p : provider) (text : string) : PyDict.t value :=
  match p with
  | DeepSeek | OpenAI | Grok =>
      [("choices", VList [VDict [("message", VDict [("content", VStr text)])]])]
  | Gemini =>
      [("candidates",
        VList [VDict [("content",
                       VDict [("parts", VList [VDict [("text", VStr text)]])])]])]
  | Claude => [("content", VList [VDict [("text", VStr text)]])]
  end.

(** The path to the generated text, by class. *)
Definition content_path (p : provider) : value -> outcome value :=
  match p with
  | DeepSeek | OpenAI | Grok => choices_content
  | Gemini => candidates_content
  | Claude => blocks_content
  end.

(** What [_make_request] makes of the outcome of its [try]. *)
Definition request_result (a : outcome value) : outcome value :=
  match a with
  | Ret v => Ret v
  | Raise e =>
      if is_request_exception (exn_cls e)
      then Ret (VDict (error_dict (exn_msg e)))
      else Raise e
  end.

(** The dictionary of a successful extraction. *)
Definition extracted (content : string) : PyDict.t value :=
  [("code", VStr (fst (Extract.extract content)));
   ("explanation", VStr (snd (Extract.extract content)))].

(** The connector the factory makes of a stored key: none for no
    entry, for an empty key and for a name the factory refuses. *)
Definition connector_for (model_name : string) (stored : option string)
  : option connector :=
  match stored with
  | Some key =>
      if truthy key then
        match create_connector model_name key with
        | Ret c => Some c
        | Raise _ => None
        end
      else None
  | None => None
  end.

(** The address each class ends up posting to. *)
Definition post_url (p : provider) : string :=
  match p with
  | DeepSeek => "https://api.deepseek.com/chat/completions"
  | Gemini =>
      "https://generativelanguage.googleapis.com/models/gemini-pro-code:generateContent"
  | OpenAI => "https://api.openai.com/chat/completions"
  | Grok => "https://api.grok.com/chat/completions"
  | Claude => "https://api.anthropic.com/messages"
  end.

(** Where each class puts the key in the request. *)
Definition carries_key (p : provider) (key : string) (rq : request) : Prop :=
  match p with
  | DeepSeek | OpenAI | Grok =>
      PyDict.get "Authorization" (req_headers rq) = Some ("Bearer " ++ key)
      /\ req_params rq = None
  | Gemini =>
      req_params rq = Some [("key", key)]
      /\ PyDict.get "Authorization" (req_headers rq) = None
  | Claude =>
      PyDict.get "x-api-key" (req_headers rq) = Some key
      /\ PyDict.get "anthropic-version" (req_headers rq) = Some "2023-06-01"
      /\ req_params rq = None
  end.

End Wire.

(* ------------------------------------------------------------------ *)
(** ** What a manager over the real connectors keeps in step *)

Module Kept.

Import ModelManager.

(** The connectors are those the factory makes of the stored keys. *)
Definition mirrors (self : ModelManager.t ApiConnector.connector) : Prop :=
  forall m, PyDict.get m (connectors self)
            = Wire.connector_for m (PyDict.get m (api_keys self)).

(** That, and no name twice in [api_keys]. *)
Definition kept (self : ModelManager.t ApiConnector.connector) : Prop :=
  mirrors self /\ NoDup (PyDict.keys (api_keys self)).

End Kept.

(* ================================================================== *)
(** * Properties *)

(** ** Strings *)

Module StrFacts.

Import Str.

Lemma append_nil_r (s : string) : s ++ "" = s.
Proof. induction s as [|c s IH]; simpl; [reflexivity | now rewrite IH]. Qed.

Lemma append_assoc (a b c : string) : (a ++ b) ++ c = a ++ (b ++ c).
Proof. induction a as [|x a IH]; simpl; [reflexivity | now rewrite IH]. Qed.

Lemma length_append (a b : string) :
  String.length (a ++ b) = String.length a + String.length b.
Proof. induction a as [|x a IH]; simpl; [reflexivity | now rewrite IH]. Qed.

Lemma take_drop (n : nat) (s : string) : take n s ++ drop n s = s.
Proof.
  revert s; induction n as [|n IH]; intros [|c s]; simpl; try reflexivity.
  now rewrite IH.
Qed.

Lemma drop_0 (s : string) : drop 0 s = s.
Proof. now destruct s. Qed.

Lemma drop_app_length (a b : string) : drop (String.length a) (a ++ b) = b.
Proof. induction a as [|x a IH]; simpl; [apply drop_0 | exact IH]. Qed.

Lemma take_app_length (a b : string) : take (String.length a) (a ++ b) = a.
Proof.
  induction a as [|x a IH]; simpl; [now destruct b | now rewrite IH].
Qed.

Lemma length_take (n : nat) (s : string) :
  n <= String.length s -> String.length (take n s) = n.
Proof.
  revert s; induction n as [|n IH]; intros [|c s] H; simpl in *;
    try reflexivity; try lia.
  rewrite IH; lia.
Qed.

Lemma strip_prefix_Some (l s r : string) :
  strip_prefix l s = Some r <-> s = l ++ r.
Proof.
  revert s; induction l as [|a l IH]; intros s; simpl.
  - split; [now intros [= ->] | now intros ->].
  - destruct s as [|b s].
    + split; discriminate.
    + destruct (Ascii.eqb_spec a b) as [->|Hne].
      * rewrite IH. split; [now intros -> | now intros [= ->]].
      * split; [discriminate | intros [= E _]; now symmetry in E].
Qed.

Lemma strip_prefix_app (l r : string) : strip_prefix l (l ++ r) = Some r.
Proof. now apply strip_prefix_Some. Qed.

End StrFacts.

(** ** The matcher on the fence pattern *)

Module ReFacts.

Import Str Re Extract StrFacts.

Lemma nl_not_word (c : ascii) (s : string) :
  is_word c = true -> strip_prefix nl (String c s) = None.
Proof.
  intros Hw. unfold nl. cbn [strip_prefix].
  destruct (Ascii.eqb_spec "010"%char c) as [<-|]; [|reflexivity].
  vm_compute in Hw. discriminate Hw.
Qed.

Section Stars.

Context {R : Type}.

(** A greedy run of word characters before something that cannot start
    with a word character stops exactly at the end of the run. *)
Lemma star_greedy_word (k : nat -> string -> option R) :
  (forall p c s, is_word c = true -> k p (String c s) = None) ->
  forall s p, star_greedy CWord p s k = k (p + word_len s) (skip_word s).
Proof.
  intros Hk. induction s as [|c s IH]; intros p; simpl.
  - now rewrite Nat.add_0_r.
  - destruct (is_word c) eqn:Hw.
    + rewrite IH, (Hk p c s Hw).
      replace (S p + word_len s) with (p + S (word_len s)) by lia.
      now destruct (k _ _).
    + now rewrite Nat.add_0_r.
Qed.

(** A lazy run of arbitrary characters before the closing line stops at
    the first closing line. *)
Lemma star_lazy_any (g : nat -> R) :
  forall s p,
    star_lazy CAny p s
      (fun p' s' => match strip_prefix (nl ++ fence) s' with
                    | Some _ => Some (g p')
                    | None => None
                    end)
    = option_map (fun n => g (p + n)) (closer_at s).
Proof.
  induction s as [|c s IH]; intros p.
  - reflexivity.
  - cbn [star_lazy closer_at].
    destruct (strip_prefix (nl ++ fence) (String c s)) eqn:E.
    + simpl. now rewrite Nat.add_0_r.
    + cbn [cset_mem]. rewrite IH. destruct (closer_at s) as [n|]; simpl.
      * f_equal. f_equal. lia.
      * reflexivity.
Qed.

End Stars.

(** What follows the language tag: the newline, the lazy body and the
    closing line, started after [q] characters. *)
Lemma fence_tail (q : nat) (t : string) :
  match strip_prefix nl t with
  | Some (String _ t1 as t0) =>
      star_lazy CAny (S (q + String.length nl)) t1
        (fun p' s' =>
           match strip_prefix (nl ++ fence) s' with
           | Some _ =>
               Some (p' + String.length (nl ++ fence),
                     Some (take (p' - (q + String.length nl)) t0))
           | None => None
           end)
  | _ => None
  end
  = match strip_prefix nl t with
    | Some (String _ t1 as t0) =>
        match closer_at t1 with
        | Some n => Some (q + 1 + S n + 4, Some (take (S n) t0))
        | None => None
        end
    | _ => None
    end.
Proof.
  destruct (strip_prefix nl t) as [[|c0 t1]|]; try reflexivity.
  rewrite (star_lazy_any
             (fun p' => (p' + String.length (nl ++ fence),
                         Some (take (p' - (q + String.length nl)) (String c0 t1))))).
  destruct (closer_at t1) as [n|]; [|reflexivity].
  cbn [option_map]. change (String.length nl) with 1.
  change (String.length (nl ++ fence)) with 4.
  replace (S (q + 1) + n - (q + 1)) with (S n) by lia.
  replace (S (q + 1) + n + 4) with (q + 1 + S n + 4) by lia.
  reflexivity.
Qed.

(** The matcher agrees with the pattern read as a function. *)
Lemma match_at_fence (s : string) : match_at fence_re s = fence_direct s.
Proof.
  unfold match_at, fence_direct, fence_re.
  cbn [bt].
  destruct (strip_prefix fence s) as [s1|]; [|reflexivity].
  change (0 + String.length fence) with 3.
  destruct s1 as [|c s1].
  - reflexivity.
  - cbn [cset_mem skip_word word_len]. destruct (is_word c) eqn:Hw.
    + rewrite star_greedy_word.
      * rewrite (nl_not_word c s1 Hw).
        rewrite (fence_tail (4 + word_len s1) (skip_word s1)).
        destruct (strip_prefix nl (skip_word s1)) as [[|c0 t1]|]; try reflexivity.
        destruct (closer_at t1) as [n|]; [|reflexivity].
        replace (4 + word_len s1 + 1 + S n + 4)
          with (3 + S (word_len s1) + 1 + S n + 4) by lia.
        reflexivity.
      * intros p c' s' Hw'. now rewrite (nl_not_word c' s' Hw').
    + rewrite (fence_tail 3 (String c s1)).
      destruct (strip_prefix nl (String c s1)) as [[|c0 t1]|]; try reflexivity.
Qed.

Lemma skip_word_split (s : string) :
  s = take (word_len s) s ++ skip_word s /\ all_word (take (word_len s) s) = true.
Proof.
  induction s as [|c s [IH1 IH2]]; simpl.
  - split; reflexivity.
  - destruct (is_word c) eqn:Hw; simpl.
    + rewrite Hw, IH2. split; [now rewrite <- IH1 | reflexivity].
    + split; reflexivity.
Qed.

Lemma closer_at_split (s : string) (n : nat) :
  closer_at s = Some n ->
  exists rest, s = take n s ++ (nl ++ fence) ++ rest /\ n <= String.length s.
Proof.
  revert n; induction s as [|c s IH]; intros n.
  - discriminate.
  - cbn [closer_at].
    destruct (strip_prefix (nl ++ fence) (String c s)) as [rest|] eqn:E.
    + intros [= <-]. apply strip_prefix_Some in E. exists rest.
      split; [exact E | simpl; lia].
    + destruct (closer_at s) as [m|]; [|discriminate].
      intros [= <-]. destruct (IH m eq_refl) as (rest & Hs & Hle).
      exists rest. split; [|simpl; lia].
      cbn [take append]. now rewrite <- Hs.
Qed.

Lemma closer_at_eq (s : string) :
  closer_at s
  = match strip_prefix (nl ++ fence) s with
    | Some _ => Some 0
    | None =>
        match s with
        | String _ s' => option_map S (closer_at s')
        | EmptyString => None
        end
    end.
Proof. destruct s; reflexivity. Qed.

(** No closing line starts before the one [closer_at] finds. *)
Lemma closer_at_first (s : string) (n : nat) :
  closer_at s = Some n ->
  forall j, j < n -> strip_prefix (nl ++ fence) (drop j s) = None.
Proof.
  revert n; induction s as [|c s IH]; intros n.
  - discriminate.
  - rewrite closer_at_eq.
    destruct (strip_prefix (nl ++ fence) (String c s)) as [r|] eqn:E.
    + intros [= <-] j Hj. lia.
    + destruct (closer_at s) as [m|]; [|discriminate].
      intros [= <-] j Hj. destruct j as [|j]; [exact E|].
      cbn [drop]. apply (IH m eq_refl). lia.
Qed.


Lemma strip_prefix_None (l s : string) :
  strip_prefix l s = None -> prefix l s = false.
Proof.
  revert s; induction l as [|a l IH]; intros [|b s]; simpl; try easy.
  destruct (Ascii.eqb_spec a b) as [->|Hne].
  - intros H. destruct (ascii_dec b b); [now apply IH | reflexivity].
  - intros _. destruct (ascii_dec a b); [contradiction | reflexivity].
Qed.

Lemma skip_word_tag (tag rest : string) :
  all_word tag = true ->
  skip_word (tag ++ nl ++ rest) = nl ++ rest
  /\ word_len (tag ++ nl ++ rest) = String.length tag.
Proof.
  induction tag as [|c tag IH]; cbn [all_word].
  - intros _. split; reflexivity.
  - intros H. apply andb_true_iff in H as [Hc Ht].
    destruct (IH Ht) as [IH1 IH2].
    cbn [append skip_word word_len String.length]. rewrite Hc.
    split; [exact IH1 | now rewrite IH2].
Qed.

(** A match of the pattern is an opener, a tag of word characters, a
    newline, a non-empty interior and the first closing line that starts
    after the first character of the interior; group 1 is the interior
    and the length is that of the whole block. *)
Lemma match_at_fence_first (s : string) (len : nat) (cap : option string) :
  match_at fence_re s = Some (len, cap) ->
  exists tag body rest,
    s = fence ++ tag ++ nl ++ body ++ nl ++ fence ++ rest
    /\ all_word tag = true
    /\ body <> ""
    /\ cap = Some body
    /\ len = String.length (fence ++ tag ++ nl ++ body ++ nl ++ fence)
    /\ (forall i, 1 <= i < String.length body ->
          prefix (nl ++ fence) (drop i (body ++ nl ++ fence ++ rest)) = false).
Proof.
  rewrite match_at_fence. unfold fence_direct.
  destruct (strip_prefix fence s) as [s1|] eqn:E1; [|discriminate].
  destruct (strip_prefix nl (skip_word s1)) as [[|c s4]|] eqn:E2; try discriminate.
  destruct (closer_at s4) as [n|] eqn:E3; [|discriminate].
  intros [= <- <-].
  apply strip_prefix_Some in E1, E2.
  destruct (skip_word_split s1) as [Hs1 Hw].
  destruct (closer_at_split s4 n E3) as (rest & Hs4 & Hn).
  exists (take (word_len s1) s1), (String c (take n s4)), rest.
  repeat split.
  - rewrite E1. f_equal. rewrite Hs1 at 1. f_equal. rewrite E2.
    cbn [append]. f_equal. f_equal. rewrite Hs4 at 1.
    now rewrite append_assoc.
  - exact Hw.
  - discriminate.
  - rewrite !length_append. cbn [String.length fence nl].
    rewrite (length_take n s4 Hn).
    assert (Hwl : String.length (take (word_len s1) s1) = word_len s1).
    { clear. induction s1 as [|c s IH]; simpl; [reflexivity|].
      destruct (is_word c); simpl; [now rewrite IH | reflexivity]. }
    rewrite Hwl. lia.
  - intros i [Hlo Hhi]. cbn [String.length] in Hhi.
    rewrite (length_take n s4 Hn) in Hhi.
    destruct i as [|j]; [lia|].
    cbn [append drop].
    replace (take n s4 ++ nl ++ fence ++ rest) with s4
      by (rewrite Hs4 at 1; now rewrite append_assoc).
    apply strip_prefix_None. apply (closer_at_first s4 n E3). lia.
Qed.

Lemma match_at_fence_sound (s : string) (len : nat) (cap : option string) :
  match_at fence_re s = Some (len, cap) ->
  exists tag body rest,
    s = fence ++ tag ++ nl ++ body ++ nl ++ fence ++ rest
    /\ all_word tag = true
    /\ body <> ""
    /\ cap = Some body
    /\ len = String.length (fence ++ tag ++ nl ++ body ++ nl ++ fence).
Proof.
  intros H. destruct (match_at_fence_first s len cap H)
    as (tag & body & rest & H1 & H2 & H3 & H4 & H5 & _).
  now exists tag, body, rest.
Qed.


Lemma match_at_fence_length (s : string) (len : nat) (cap : option string) :
  match_at fence_re s = Some (len, cap) -> 9 <= len <= String.length s.
Proof.
  intros H. destruct (match_at_fence_sound s len cap H)
    as (tag & body & rest & Hs & _ & Hb & _ & Hlen).
  subst len. rewrite Hs. rewrite !length_append.
  destruct body as [|c b]; [congruence|].
  cbn [String.length fence nl]. lia.
Qed.

(** *** The two scans *)

Lemma findall_from_drop (r : regex) (s : string) (n : nat) :
  findall_from r n s = findall_from r 0 (drop n s).
Proof.
  revert n; induction s as [|c s IH]; intros [|n]; try reflexivity.
  cbn [findall_from drop]. apply IH.
Qed.

Lemma sub_from_drop (r : regex) (s : string) (n : nat) :
  sub_from r n s = sub_from r 0 (drop n s).
Proof.
  revert n; induction s as [|c s IH]; intros [|n]; try reflexivity.
  cbn [sub_from drop]. apply IH.
Qed.


Lemma findall_at_match (s : string) (len : nat) (cap : option string) :
  match_at fence_re s = Some (len, cap) ->
  findall fence_re s
  = match cap with Some g => g | None => "" end
      :: findall fence_re (drop len s).
Proof.
  intros H. pose proof (match_at_fence_length s len cap H) as [Hlo Hhi].
  unfold findall. destruct s as [|c s]; [simpl in Hhi; lia|].
  cbn [findall_from]. rewrite H. f_equal.
  rewrite findall_from_drop. destruct len as [|len]; [lia|].
  replace (S len - 1) with len by lia. reflexivity.
Qed.

Lemma sub_at_match (s : string) (len : nat) (cap : option string) :
  match_at fence_re s = Some (len, cap) ->
  sub_empty fence_re s = sub_empty fence_re (drop len s).
Proof.
  intros H. pose proof (match_at_fence_length s len cap H) as [Hlo Hhi].
  unfold sub_empty. destruct s as [|c s]; [simpl in Hhi; lia|].
  cbn [sub_from]. rewrite H.
  rewrite sub_from_drop. destruct len as [|len]; [lia|].
  replace (S len - 1) with len by lia. reflexivity.
Qed.

Lemma findall_clear (pre s : string) :
  clear pre s -> findall fence_re (pre ++ s) = findall fence_re s.
Proof.
  unfold findall. induction pre as [|c pre IH]; intros Hc; [reflexivity|].
  destruct Hc as [H0 Hc]. cbn [append findall_from].
  cbn [append] in H0. rewrite H0. now apply IH.
Qed.

Lemma sub_clear (pre s : string) :
  clear pre s -> sub_empty fence_re (pre ++ s) = pre ++ sub_empty fence_re s.
Proof.
  unfold sub_empty. induction pre as [|c pre IH]; intros Hc; [reflexivity|].
  destruct Hc as [H0 Hc]. cbn [append sub_from].
  cbn [append] in H0. rewrite H0. now rewrite IH.
Qed.

(** Without a fenced block both scans leave the text alone. *)
Lemma no_fence_clear (s : string) : no_fence s = true -> clear s "".
Proof.
  induction s as [|c s IH]; intros H; [exact I|].
  cbn [no_fence] in H. cbn [clear]. rewrite append_nil_r.
  destruct (match_at fence_re (String c s)); [discriminate|].
  split; [reflexivity | now apply IH].
Qed.

Lemma no_fence_findall (s : string) :
  no_fence s = true -> findall fence_re s = [].
Proof.
  intros H. pose proof (findall_clear s "" (no_fence_clear s H)) as E.
  now rewrite append_nil_r in E.
Qed.

Lemma no_fence_sub (s : string) :
  no_fence s = true -> sub_empty fence_re s = s.
Proof.
  intros H. pose proof (sub_clear s "" (no_fence_clear s H)) as E.
  now rewrite !append_nil_r in E.
Qed.

(** With one, there is a leftmost. *)
Lemma leftmost_fence (s : string) :
  no_fence s = false ->
  exists pre blk len cap,
    s = pre ++ blk /\ clear pre blk /\ match_at fence_re blk = Some (len, cap).
Proof.
  induction s as [|c s IH]; cbn [no_fence].
  - destruct (match_at fence_re "") as [[len cap]|] eqn:E; [|discriminate].
    intros _. now exists "", "", len, cap.
  - destruct (match_at fence_re (String c s)) as [[len cap]|] eqn:E.
    + intros _. now exists "", (String c s), len, cap.
    + intros H. destruct (IH H) as (pre & blk & len & cap & Hs & Hc & Hm).
      exists (String c pre), blk, len, cap. subst s.
      split; [reflexivity|]. split; [|exact Hm].
      cbn [clear]. split; [exact E | exact Hc].
Qed.

(** A text without three backticks in a row has no fenced block. *)
Lemma strip_prefix_prefix (l s r : string) :
  strip_prefix l s = Some r -> prefix l s = true.
Proof.
  revert s; induction l as [|a l IH]; intros [|b s]; simpl; try easy.
  destruct (Ascii.eqb_spec a b) as [->|Hne]; [|discriminate].
  intros H. destruct (ascii_dec b b); [eauto | contradiction].
Qed.

Lemma no_backticks_no_fence (s : string) :
  contains fence s = false -> no_fence s = true.
Proof.
  induction s as [|c s IH]; cbn [contains no_fence]; intros H.
  - rewrite match_at_fence. reflexivity.
  - apply orb_false_iff in H as [Hp Hc].
    rewrite match_at_fence. unfold fence_direct.
    destruct (strip_prefix fence (String c s)) as [r|] eqn:E.
    + apply strip_prefix_prefix in E. congruence.
    + now apply IH.
Qed.

End ReFacts.

(** ** Response extraction *)

Module ExtractSpec.

Import Str Re Extract StrFacts ReFacts.

(** C3, amended.  For a text in which no fenced block starts, the
    extraction returns the whole text verbatim as the code, and the same
    text with its leading and trailing whitespace stripped as the
    explanation (not the sentinel). *)
Theorem extract_no_fence (text : string) :
  no_fence text = true ->
  extract text = (text, strip text).
Proof.
  intros H. unfold extract.
  rewrite (no_fence_findall text H), (no_fence_sub text H). reflexivity.
Qed.

Lemma extract_no_fence_witness :
  no_fence "  plain words " = true
  /\ extract "  plain words " = ("  plain words ", "plain words").
Proof.
  split; [reflexivity|].
  apply (extract_no_fence "  plain words "). reflexivity.
Defined.

(** C3 as stated fails: on a text without any backtick the explanation
    is the text itself, which is neither sentinel. *)
Lemma extract_no_fence_counterexample :
  contains fence "hello" = false
  /\ no_fence "hello" = true
  /\ extract "hello" = ("hello", "hello")
  /\ snd (extract "hello") <> default_explanation
  /\ snd (extract "hello") <> "No explanation provided".
Proof.
  repeat split; try reflexivity; vm_compute; discriminate.
Qed.




End ExtractSpec.

(** ** Dictionaries *)

Module PyDictFacts.

Import PyDict.

Section Facts.

Context {V : Type}.
Implicit Types (d : PyDict.t V) (k : string) (v : V).

Lemma get_set_same d k v : get k (set k v d) = Some v.
Proof.
  induction d as [|[k' v'] d IH]; simpl.
  - now rewrite String.eqb_refl.
  - destruct (String.eqb k k') eqn:E; simpl; rewrite E; [reflexivity | exact IH].
Qed.

Lemma get_set_other d k k' v : k <> k' -> get k' (set k v d) = get k' d.
Proof.
  intros Hne. induction d as [|[k0 v0] d IH]; simpl.
  - destruct (String.eqb_spec k' k); [congruence | reflexivity].
  - destruct (String.eqb_spec k k0) as [->|]; simpl.
    + destruct (String.eqb_spec k' k0); [congruence | reflexivity].
    + destruct (String.eqb k' k0); [reflexivity | exact IH].
Qed.

Lemma get_del_same d k : get k (del k d) = None.
Proof.
  induction d as [|[k' v'] d IH]; simpl; [reflexivity|].
  destruct (String.eqb k k') eqn:E; simpl; [exact IH | now rewrite E].
Qed.

Lemma get_del_other d k k' : k <> k' -> get k' (del k d) = get k' d.
Proof.
  intros Hne. induction d as [|[k0 v0] d IH]; simpl; [reflexivity|].
  destruct (String.eqb_spec k k0) as [->|]; simpl.
  - destruct (String.eqb_spec k' k0); [congruence | exact IH].
  - destruct (String.eqb k' k0); [reflexivity | exact IH].
Qed.

Lemma mem_set_same d k v : mem k (set k v d) = true.
Proof. unfold mem. now rewrite get_set_same. Qed.

Lemma mem_set_other d k k' v : k <> k' -> mem k' (set k v d) = mem k' d.
Proof. intros H. unfold mem. now rewrite get_set_other. Qed.

Lemma mem_del_same d k : mem k (del k d) = false.
Proof. unfold mem. now rewrite get_del_same. Qed.

Lemma mem_del_other d k k' : k <> k' -> mem k' (del k d) = mem k' d.
Proof. intros H. unfold mem. now rewrite get_del_other. Qed.

Lemma first_key_mem d k : first_key d = Some k -> mem k d = true.
Proof.
  destruct d as [|[k' v'] d]; simpl; [discriminate|].
  intros [= ->]. unfold mem. simpl. now rewrite String.eqb_refl.
Qed.

Lemma mem_get d k : mem k d = true -> exists v, get k d = Some v.
Proof. unfold mem. destruct (get k d) as [v|]; [now exists v | discriminate]. Qed.

End Facts.

End PyDictFacts.

(** ** The model manager, over any connector implementation *)

Module ManagerSpec.

Import Str Py ModelManager PyDictFacts.

Section Generic.

Context {C W : Type} {API : ConnectorAPI C W}.

Implicit Types (self : ModelManager.t C) (w : W) (d : PyDict.t value).

Ltac split_ifs :=
  repeat match goal with
         | |- context [if ?b then _ else _] => destruct b eqn:?
         end.

Lemma enrich_model m d : PyDict.get "model" (enrich m d) = Some (VStr m).
Proof.
  unfold enrich. split_ifs;
    repeat (rewrite get_set_other by discriminate); apply get_set_same.
Qed.

Lemma enrich_error m d : PyDict.mem "error" (enrich m d) = PyDict.mem "error" d.
Proof.
  unfold enrich. split_ifs;
    repeat (rewrite mem_set_other by discriminate); reflexivity.
Qed.

Lemma enrich_code m d :
  PyDict.get "code" (enrich m d)
  = Some (match PyDict.get "code" d with Some v => v | None => VStr no_code end).
Proof.
  unfold enrich.
  destruct (PyDict.mem "code" (PyDict.set "model" (VStr m) d)) eqn:Hc.
  - rewrite mem_set_other in Hc by discriminate.
    destruct (mem_get _ _ Hc) as [v Hv]. rewrite Hv.
    split_ifs; repeat (rewrite get_set_other by discriminate); exact Hv.
  - rewrite mem_set_other in Hc by discriminate. unfold PyDict.mem in Hc.
    destruct (PyDict.get "code" d); [discriminate|].
    split_ifs; repeat (rewrite get_set_other by discriminate);
      apply get_set_same.
Qed.

Lemma enrich_explanation m d :
  PyDict.get "explanation" (enrich m d)
  = Some (match PyDict.get "explanation" d with
          | Some v => v
          | None => VStr no_explanation
          end).
Proof.
  unfold enrich.
  set (d2 := if PyDict.mem "code" (PyDict.set "model" (VStr m) d)
             then PyDict.set "model" (VStr m) d
             else PyDict.set "code" (VStr no_code) (PyDict.set "model" (VStr m) d)).
  assert (Hd2 : PyDict.get "explanation" d2 = PyDict.get "explanation" d).
  { unfold d2. split_ifs; repeat (rewrite get_set_other by discriminate);
      reflexivity. }
  unfold PyDict.mem. rewrite Hd2.
  destruct (PyDict.get "explanation" d) as [v|] eqn:Hv.
  - now rewrite Hd2.
  - apply get_set_same.
Qed.

(** A result of [generate_code] without an error comes from a connector
    that was found and returned a dictionary. *)
Lemma generate_code_success prompt model_name temperature self w result self' w' :
  generate_code prompt model_name temperature self w = (result, self', w') ->
  PyDict.mem "error" result = false ->
  exists m conn d,
    PyDict.get m (connectors self) = Some conn
    /\ connector_generate_code conn prompt temperature w = (Ret (VDict d), w')
    /\ result = enrich m d.
Proof.
  unfold generate_code.
  destruct (if truthy_opt model_name then model_name else active_model self)
    as [m|]; [|intros [= <- _ _]; discriminate].
  destruct (truthy m); [|intros [= <- _ _]; discriminate].
  destruct (PyDict.get m (connectors self)) as [conn|] eqn:Hconn;
    [|intros [= <- _ _]; discriminate].
  destruct (connector_generate_code conn prompt temperature w) as [r w1] eqn:Hcall.
  destruct r as [v|e]; [|intros [= <- _ _]; discriminate].
  destruct v; try (intros [= <- _ _]; discriminate).
  intros [= <- _ <-] _. now exists m, conn, d.
Qed.

(** No capability call assigns a field of the manager. *)
Lemma generate_code_state prompt model_name temperature self w :
  snd (fst (generate_code prompt model_name temperature self w)) = self.
Proof.
  unfold generate_code.
  destruct (if truthy_opt model_name then model_name else active_model self)
    as [m|]; [|reflexivity].
  destruct (truthy m); [|reflexivity].
  destruct (PyDict.get m (connectors self)) as [conn|]; [|reflexivity].
  destruct (connector_generate_code conn prompt temperature w) as [[v|e] w1];
    [destruct v|]; reflexivity.
Qed.

Lemma perform_state c model_name temperature self w :
  snd (fst (perform c model_name temperature self w)) = self.
Proof. destruct c; apply generate_code_state. Qed.

(** Every capability call is [generate_code] on some prompt. *)
Lemma perform_generate_code c model_name temperature self w :
  exists prompt,
    perform c model_name temperature self w
    = generate_code prompt model_name temperature self w.
Proof. destruct c; eexists; reflexivity. Qed.

(** *** The active model is a key of [connectors] *)

Lemma set_api_key_available model_name key self :
  active_available self ->
  active_available (snd (set_api_key model_name key self)).
Proof.
  intros Hinv a. unfold set_api_key.
  destruct (truthy key).
  - destruct (create_connector model_name key) as [c|e]; cbn.
    + destruct (active_model self) as [a0|] eqn:Ha; cbn.
      * rewrite Ha. intros [= <-].
        destruct (String.eqb_spec model_name a0) as [->|Hne].
        -- apply mem_set_same.
        -- rewrite mem_set_other by exact Hne. now apply Hinv.
      * intros [= <-]. apply mem_set_same.
    + exact (Hinv a).
  - cbn.
    set (self1 := if PyDict.mem model_name (connectors self)
                  then with_connectors
                         (with_api_keys self
                            (PyDict.set model_name key (api_keys self)))
                         (PyDict.del model_name (connectors self))
                  else with_api_keys self
                         (PyDict.set model_name key (api_keys self))).
    assert (Hact : active_model self1 = active_model self)
      by (unfold self1; now destruct (PyDict.mem _ _)).
    assert (Hget : forall k, k <> model_name ->
                     PyDict.mem k (connectors self1) = PyDict.mem k (connectors self)).
    { intros k Hk. unfold self1. destruct (PyDict.mem model_name _); cbn;
        [apply mem_del_other; congruence | reflexivity]. }
    unfold active_is. rewrite Hact.
    destruct (active_model self) as [a0|] eqn:Ha.
    + destruct (String.eqb_spec a0 model_name) as [->|Hne]; cbn.
      * apply first_key_mem.
      * rewrite Hact. intros [= <-]. rewrite Hget by exact Hne. now apply Hinv.
    + rewrite Hact. discriminate.
Qed.

Lemma load_api_keys_available file_path fs self :
  active_available self ->
  active_available (snd (load_api_keys file_path self fs)).
Proof.
  unfold load_api_keys. destruct (PyDict.get file_path fs) as [keys|]; cbn;
    [|trivial].
  revert self. induction keys as [|[k v] keys IH]; intros self Hinv; cbn;
    [exact Hinv|].
  apply IH. now apply set_api_key_available.
Qed.

Lemma step_available (st : ModelManager.t C * W) (o : op) :
  active_available (fst st) -> active_available (fst (step st o)).
Proof.
  destruct st as [self w]. intros Hinv. destruct o as [m k|m|p fs|c mn t]; cbn.
  - now apply set_api_key_available.
  - unfold set_active_model.
    destruct (PyDict.mem m (connectors self)) eqn:Hm; cbn; [|exact Hinv].
    intros a [= <-]. exact Hm.
  - now apply load_api_keys_available.
  - pose proof (perform_state c mn t self w) as Hs.
    destruct (perform c mn t self w) as [[r self'] w']. cbn in *. now subst.
Qed.

Lemma run_available (ops : list op) w : active_available (fst (run ops w)).
Proof.
  unfold run.
  assert (H0 : active_available (fst (init (C := C), w)))
    by (intros a; discriminate).
  revert H0. generalize (init (C := C), w). induction ops as [|o ops IH]; intros st H;
    cbn; [exact H|].
  apply IH. now apply step_available.
Qed.

(** *** Clearing a key *)

Lemma set_api_key_empty model_name self :
  let st := snd (set_api_key model_name "" self) in
  fst (set_api_key model_name "" self) = true
  /\ PyDict.mem model_name (connectors st) = false
  /\ api_keys st = PyDict.set model_name "" (api_keys self).
Proof.
  unfold set_api_key. cbn.
  destruct (PyDict.mem model_name (connectors self)) eqn:Hm; cbn;
    destruct (active_is _ model_name); cbn;
    repeat split; auto using mem_del_same.
Qed.

Lemma set_api_key_stored model_name key (c : C) self :
  key <> "" ->
  create_connector model_name key = Ret c ->
  snd (set_api_key model_name key self)
  = {| api_keys := PyDict.set model_name key (api_keys self);
       connectors := PyDict.set model_name c (connectors self);
       active_model := match active_model self with
                       | None => Some model_name
                       | Some a => Some a
                       end |}.
Proof.
  intros Hk Hc. unfold set_api_key.
  destruct key as [|a key]; [contradiction|]. cbn [truthy]. rewrite Hc. cbn.
  destruct (active_model self) eqn:E;
    unfold with_active_model, with_connectors, with_api_keys; cbn;
    rewrite ?E; reflexivity.
Qed.

Lemma generate_code_unavailable prompt m temperature self w :
  m <> "" ->
  PyDict.mem m (connectors self) = false ->
  generate_code prompt (Some m) temperature self w
  = (error_dict ("Model " ++ m ++ " not available"), self, w).
Proof.
  intros Hm Hc. unfold generate_code, truthy_opt.
  destruct m as [|c m]; [contradiction|]. cbn [truthy].
  unfold PyDict.mem in Hc.
  destruct (PyDict.get (String c m) (connectors self)); [discriminate|].
  reflexivity.
Qed.

(** C1.  A capability call whose result has no ["error"] key resolved
    a connector that returned a dictionary, and the result carries the
    provider id under ["model"], a ["code"] entry and an ["explanation"]
    entry: the connector's own when it gave one, the sentinel otherwise.
    So a result without an error never has only one of the two. *)
Theorem success_result_is_complete (c : capability) (model_name : option string)
    (temperature : float) self w result self' w' :
  perform c model_name temperature self w = (result, self', w') ->
  PyDict.mem "error" result = false ->
  exists m conn prompt d,
    PyDict.get m (connectors self) = Some conn
    /\ connector_generate_code conn prompt temperature w = (Ret (VDict d), w')
    /\ PyDict.get "model" result = Some (VStr m)
    /\ PyDict.get "code" result
       = Some (match PyDict.get "code" d with
               | Some v => v
               | None => VStr no_code
               end)
    /\ PyDict.get "explanation" result
       = Some (match PyDict.get "explanation" d with
               | Some v => v
               | None => VStr no_explanation
               end).
Proof.
  intros Hp Herr.
  destruct (perform_generate_code c model_name temperature self w) as [prompt E].
  rewrite E in Hp.
  destruct (generate_code_success _ _ _ _ _ _ _ _ Hp Herr)
    as (m & conn & d & Hconn & Hcall & ->).
  exists m, conn, prompt, d.
  repeat split; auto using enrich_model, enrich_code, enrich_explanation.
Qed.

(** C4.  After any sequence of calls on a fresh manager the active
    model, when set, is a key of [connectors].  With A then B activated
    on a fresh manager A is active; clearing A's key makes B (the first
    remaining key) active, and clearing B's key afterwards leaves no
    active model. *)
Theorem active_provider_reassignment (A B kA kB : string) (cA cB : C) :
  A <> B -> kA <> "" -> kB <> "" ->
  create_connector A kA = Ret cA ->
  create_connector B kB = Ret cB ->
  let s2 := snd (set_api_key B kB (snd (set_api_key A kA init))) in
  let s3 := snd (set_api_key A "" s2) in
  let s4 := snd (set_api_key B "" s3) in
  (forall (ops : list op) (w : W), active_available (fst (run ops w)))
  /\ active_model s2 = Some A
  /\ active_model s3 = Some B
  /\ active_model s3 = PyDict.first_key (connectors s3)
  /\ active_model s4 = None.
Proof.
  intros Hne HkA HkB HA HB. cbv zeta.
  split; [exact run_available|].
  assert (HAB : String.eqb A B = false) by now apply String.eqb_neq.
  assert (HBA : String.eqb B A = false)
    by (apply String.eqb_neq; congruence).
  rewrite (set_api_key_stored A kA cA init HkA HA).
  rewrite (set_api_key_stored B kB cB _ HkB HB). cbn. rewrite HBA.
  unfold set_api_key. cbn. unfold PyDict.mem, active_is. cbn.
  rewrite !String.eqb_refl. cbn. rewrite ?String.eqb_refl, ?HAB, ?HBA. cbn.
  rewrite ?String.eqb_refl, ?HAB, ?HBA. cbn.
  rewrite ?String.eqb_refl, ?HAB, ?HBA. cbn.
  repeat split; reflexivity.
Qed.

(** C5, amended.  Setting the empty key for a provider id succeeds,
    removes the connector stored for that id and keeps the credential
    entry, now holding the empty string.  For a non-empty id, a
    [generate_code] naming that provider afterwards returns the
    "not available" error, with the manager unchanged and no connector
    called. *)
Theorem empty_key_removes_connector (model_name : string) self :
  let st := snd (set_api_key model_name "" self) in
  fst (set_api_key model_name "" self) = true
  /\ PyDict.mem model_name (connectors st) = false
  /\ PyDict.get model_name (api_keys st) = Some ""
  /\ (model_name <> "" ->
      forall prompt temperature w,
        generate_code prompt (Some model_name) temperature st w
        = (error_dict ("Model " ++ model_name ++ " not available"), st, w)).
Proof.
  destruct (set_api_key_empty model_name self) as (Hok & Hc & Hk).
  cbv zeta. split; [exact Hok|]. split; [exact Hc|]. split.
  - rewrite Hk. apply get_set_same.
  - intros Hne prompt temperature w.
    now apply generate_code_unavailable.
Qed.


End Generic.

End ManagerSpec.

(** ** The request layer and the connectors *)

Module ConnectorSpec.

Import Str Py ApiConnector Scenario.

Lemma error_status_raises (r : response) :
  (400 <= status_code r < 600)%Z ->
  raise_for_status r = raise HTTPError (http_error_msg r).
Proof.
  intros H. unfold raise_for_status.
  assert (Ht : truthy (http_error_msg r) = true).
  { unfold http_error_msg.
    destruct ((400 <=? status_code r)%Z && (status_code r <? 500)%Z) eqn:E1.
    - destruct (of_Z (status_code r)); reflexivity.
    - destruct ((500 <=? status_code r)%Z && (status_code r <? 600)%Z) eqn:E2.
      + destruct (of_Z (status_code r)); reflexivity.
      + apply andb_false_iff in E1, E2. lia. }
  now rewrite Ht.
Qed.

Lemma other_status_passes (r : response) :
  ~ (400 <= status_code r < 600)%Z -> raise_for_status r = Ret tt.
Proof.
  intros H. unfold raise_for_status, http_error_msg.
  destruct ((400 <=? status_code r)%Z && (status_code r <? 500)%Z) eqn:E1;
    [apply andb_true_iff in E1; lia|].
  destruct ((500 <=? status_code r)%Z && (status_code r <? 600)%Z) eqn:E2;
    [apply andb_true_iff in E2; lia|].
  reflexivity.
Qed.

(** What the [try] of [_make_request] yields on a failed exchange. *)
Lemma failed_attempt (o : outcome response) (detail : string) :
  failed o detail ->
  exists e,
    (response <- o ;; _ <- raise_for_status response ;; resp_json response)
    = Raise e
    /\ is_request_exception (exn_cls e) = true
    /\ exn_msg e = detail.
Proof.
  intros [msg|msg|r Hr].
  - eexists; repeat split; reflexivity.
  - eexists; repeat split; reflexivity.
  - exists {| exn_cls := HTTPError; exn_msg := http_error_msg r |}.
    cbn [bind]. rewrite (error_status_raises r Hr). repeat split; reflexivity.
Qed.

Lemma make_request_failed (net : network) (self : connector)
    (method endpoint : string) (data : option value)
    (headers params : option (PyDict.t string)) (log : list request)
    (detail : string) :
  (forall rq, failed (net log rq) detail) ->
  exists rq,
    _make_request net self method endpoint data headers params log
    = (Ret (VDict (error_dict detail)), (log ++ [rq])%list).
Proof.
  intros Hnet. unfold _make_request.
  match goal with
  | |- context [net log ?rq] =>
      exists rq; destruct (failed_attempt (net log rq) detail (Hnet rq))
        as (e & -> & He & <-)
  end.
  now rewrite He.
Qed.

(** C9, amended.  When the exchange fails by a timeout, by a transport
    error or by a status from 400 to 599, [_make_request] returns a
    dictionary whose ["error"] entry is the failure detail, and so does
    [generate_code] of every connector: a value is returned, nothing is
    raised.  One request has been sent. *)
Theorem network_failure_is_error_result (net : network) (self : connector)
    (prompt : string) (temperature : float) (log : list request)
    (detail : string) :
  (forall rq, failed (net log rq) detail) ->
  (forall method endpoint data headers params,
      exists rq,
        _make_request net self method endpoint data headers params log
        = (Ret (VDict (error_dict detail)), (log ++ [rq])%list))
  /\ exists rq,
      generate_code net self prompt temperature log
      = (Ret (VDict (error_dict detail)), (log ++ [rq])%list).
Proof.
  intros Hnet. split.
  - intros. now apply make_request_failed.
  - unfold generate_code, chat_generate_code, gemini_generate_code,
      claude_generate_code.
    destruct (cls self);
      match goal with
      | |- context [_make_request net self ?m ?e ?d ?h ?p log] =>
          destruct (make_request_failed net self m e d h p log detail Hnet)
            as [rq ->]
      end;
      exists rq; reflexivity.
Qed.

Lemma network_failure_is_error_result_witness :
  (forall rq, failed (timing_out [] rq) "timed out")
  /\ fst (generate_code timing_out (ClaudeConnector "k") "p" temperature [])
     = Ret (VDict [("error", VStr "timed out")]).
Proof.
  assert (H : forall rq, failed (timing_out [] rq) "timed out")
    by (intros rq; apply failed_timeout).
  split; [exact H|].
  destruct (network_failure_is_error_result
              timing_out (ClaudeConnector "k") "p" temperature [] "timed out" H)
    as [_ [rq ->]].
  reflexivity.
Defined.

(** C9 as stated fails for a status outside 200-299 that is not an
    error status: a 300 answer with a JSON body passes
    [raise_for_status], so the request layer returns the body, which has
    no ["error"] entry, and the connector reports a success. *)
Lemma network_failure_is_error_result_counterexample :
  let net := answering 300 (VDict [("ok", VBool true)]) in
  let self := DeepSeekConnector "k" in
  ~ (200 <= 300 < 300)%Z
  /\ fst (_make_request net self "POST" "chat/completions" None None None [])
     = Ret (VDict [("ok", VBool true)])
  /\ PyDict.mem "error" [("ok", VBool true)] = false
  /\ fst (generate_code net self "p" temperature [])
     = Ret (VDict [("code", VStr ""); ("explanation", VStr "")]).
Proof.
  repeat split; try reflexivity. lia.
Qed.

End ConnectorSpec.

(** ** The manager over the connectors of [api_connector.py] *)

Module GatewaySpec.

Import Str Py Scenario PyDictFacts.
Import ApiConnector(network, request, response, connector, provider_ids,
                    status_code, resp_json, choices_content).
Import ModelManager.

(** The factory raises for a name outside the closed set. *)
Lemma create_connector_unknown (model_name key : string) :
  ~ In model_name provider_ids ->
  ApiConnector.create_connector model_name key
  = raise ValueError ("Unknown model: " ++ model_name).
Proof.
  intros H. unfold ApiConnector.create_connector.
  repeat match goal with
         | |- context [String.eqb model_name ?k] =>
             destruct (String.eqb_spec model_name k) as [->|_];
             [exfalso; apply H; cbn; tauto|]
         end.
  reflexivity.
Qed.

Section OverNetwork.

Variable net : network.

(** C2.  On a fresh manager with a non-empty key set for "model1",
    when the provider answers a success status with a body whose
    generated text is the scenario text, [generate_code] (naming "model1"
    or naming nobody) returns exactly the code inside the fence, the
    explanation with the fence removed, and the model "model1"; there is
    no ["error"] entry. *)
Theorem end_to_end_scenario (key prompt : string) (model_name : option string)
    (temperature : float) (log : list request) (r : response)
    (body : PyDict.t value) :
  key <> "" ->
  model_name = None \/ model_name = Some "model1" ->
  (forall rq, net log rq = Ret r) ->
  (200 <= status_code r < 300)%Z ->
  resp_json r = Ret (VDict body) ->
  PyDict.mem "error" body = false ->
  choices_content (VDict body) = Ret (VStr scenario_text) ->
  let api := api_connector net in
  let st := snd (set_api_key (API := api) "model1" key init) in
  let result :=
    fst (fst (generate_code (API := api) prompt model_name temperature st log)) in
  fst (set_api_key (API := api) "model1" key init) = true
  /\ result = [("code", VStr "function sum(a,b){return a+b;}");
               ("explanation", VStr ("Here:" ++ nl ++ nl ++ "This adds two numbers."));
               ("model", VStr "model1")]
  /\ PyDict.mem "error" result = false.
Proof.
  intros Hk Hm Hnet Hs Hj He Hc. cbv zeta.
  destruct key as [|a key]; [contradiction|].
  assert (Hst : set_api_key (API := api_connector net) "model1" (String a key) init
                = (true, {| api_keys := [("model1", String a key)];
                            connectors := [("model1", ApiConnector.DeepSeekConnector
                                                        (String a key))];
                            active_model := Some "model1" |}))
    by reflexivity.
  rewrite Hst. cbn [fst snd].
  assert (Hgen : forall mn, mn = None \/ mn = Some "model1" ->
            fst (fst (generate_code (API := api_connector net) prompt mn temperature
                        {| api_keys := [("model1", String a key)];
                           connectors := [("model1", ApiConnector.DeepSeekConnector
                                                       (String a key))];
                           active_model := Some "model1" |} log))
            = [("code", VStr "function sum(a,b){return a+b;}");
               ("explanation", VStr ("Here:" ++ nl ++ nl ++ "This adds two numbers."));
               ("model", VStr "model1")]).
  { intros mn [-> | ->];
      unfold generate_code; cbn -[ApiConnector.generate_code enrich];
      unfold ApiConnector.generate_code, ApiConnector.chat_generate_code,
        ApiConnector._make_request;
      cbn [ApiConnector.cls ApiConnector.DeepSeekConnector];
      rewrite Hnet; cbn [bind];
      rewrite (ConnectorSpec.other_status_passes r) by lia; cbn [bind];
      rewrite Hj; cbn [is_request_exception bind];
      unfold ApiConnector.process; cbn [has_error bind]; rewrite He, Hc;
      cbn [bind ApiConnector.as_text];
      reflexivity. }
  rewrite (Hgen model_name Hm). repeat split; reflexivity.
Qed.

(** C10.  [set_api_key] with a name outside the closed set and a
    non-empty key returns [False]; the key is nevertheless in
    [api_keys], [connectors] and [active_model] are as before, and a
    [save_api_keys] that succeeds afterwards writes a dictionary holding
    the unknown name with its key. *)
Theorem unknown_provider_key_is_recorded (model_name key : string)
    (self : ModelManager.t connector) :
  ~ In model_name provider_ids ->
  key <> "" ->
  let api := api_connector net in
  let st := snd (set_api_key (API := api) model_name key self) in
  fst (set_api_key (API := api) model_name key self) = false
  /\ PyDict.get model_name (api_keys st) = Some key
  /\ connectors st = connectors self
  /\ active_model st = active_model self
  /\ forall (writable : string -> bool) (file_path : string) (fs : files),
      has_dirname file_path = true ->
      writable file_path = true ->
      fst (save_api_keys writable file_path st fs) = true
      /\ exists saved,
          PyDict.get file_path (snd (save_api_keys writable file_path st fs))
          = Some saved
          /\ PyDict.get model_name saved = Some key.
Proof.
  intros Hm Hk. cbv zeta.
  assert (Hst : set_api_key (API := api_connector net) model_name key self
                = (false, with_api_keys self
                            (PyDict.set model_name key (api_keys self)))).
  { unfold set_api_key. destruct key as [|a key]; [contradiction|].
    cbn [truthy]. cbn [create_connector api_connector].
    now rewrite create_connector_unknown. }
  rewrite Hst. cbn [fst snd with_api_keys api_keys connectors active_model].
  split; [reflexivity|]. split; [apply get_set_same|].
  split; [reflexivity|]. split; [reflexivity|].
  intros writable file_path fs Hd Hw.
  unfold save_api_keys. rewrite Hd, Hw. cbn [andb fst snd api_keys].
  split; [reflexivity|].
  exists (PyDict.set model_name key (api_keys self)).
  split; apply get_set_same.
Qed.

End OverNetwork.

Lemma end_to_end_scenario_witness :
  fst (fst (generate_code (API := api_connector (answering 200 (chat_reply scenario_text)))
              "sum two numbers" None temperature
              (snd (set_api_key (API := api_connector (answering 200 (chat_reply scenario_text)))
                      "model1" "k1" init))
              []))
  = [("code", VStr "function sum(a,b){return a+b;}");
     ("explanation", VStr ("Here:" ++ nl ++ nl ++ "This adds two numbers."));
     ("model", VStr "model1")].
Proof.
  refine (proj1 (proj2
    (end_to_end_scenario (answering 200 (chat_reply scenario_text))
       "k1" "sum two numbers" None temperature []
       {| ApiConnector.status_code := 200; ApiConnector.reason := "OK";
          ApiConnector.resp_url := "";
          ApiConnector.resp_json := Ret (chat_reply scenario_text) |}
       [("choices",
          VList [VDict [("message",
                         VDict [("role", VStr "assistant");
                                ("content", VStr scenario_text)])]])]
       _ _ _ _ _ _ _))).
  - discriminate.
  - left; reflexivity.
  - intros rq; reflexivity.
  - cbn; lia.
  - reflexivity.
  - reflexivity.
  - reflexivity.
Defined.

Lemma unknown_provider_key_is_recorded_witness :
  let api := api_connector timing_out in
  ~ In "model9" provider_ids
  /\ fst (set_api_key (API := api) "model9" "k9" init) = false
  /\ api_keys (snd (set_api_key (API := api) "model9" "k9" init))
     = [("model9", "k9")].
Proof.
  assert (H : ~ In "model9" provider_ids).
  { cbn. intros [E|[E|[E|[E|[E|[]]]]]]; discriminate E. }
  split; [exact H|].
  split; [|reflexivity].
  refine (proj1 (unknown_provider_key_is_recorded timing_out "model9" "k9" init H _)).
  discriminate.
Defined.

(** Witnesses of the statements proved over any connector
    implementation, on the real connectors. *)

Lemma success_result_is_complete_witness :
  let api := api_connector (answering 200 (chat_reply scenario_text)) in
  let st := snd (set_api_key (API := api) "model1" "k1" init) in
  let out := perform (API := api) (GenerateTests "f()") None temperature st [] in
  PyDict.mem "error" (fst (fst out)) = false
  /\ exists m, PyDict.get "model" (fst (fst out)) = Some (VStr m).
Proof.
  cbv zeta. split; [reflexivity|].
  destruct (ManagerSpec.success_result_is_complete
              (API := api_connector (answering 200 (chat_reply scenario_text)))
              (GenerateTests "f()") None temperature
              (snd (set_api_key
                      (API := api_connector (answering 200 (chat_reply scenario_text)))
                      "model1" "k1" init))
              [] _ _ _ eq_refl eq_refl)
    as (m & _ & _ & _ & _ & _ & Hm & _).
  exists m. exact Hm.
Defined.

Lemma active_provider_reassignment_witness :
  let api := api_connector timing_out in
  let s2 := snd (set_api_key (API := api) "model2" "k2"
                   (snd (set_api_key (API := api) "model1" "k1" init))) in
  let s3 := snd (set_api_key (API := api) "model1" "" s2) in
  let s4 := snd (set_api_key (API := api) "model2" "" s3) in
  active_model s2 = Some "model1"
  /\ active_model s3 = Some "model2"
  /\ active_model s4 = None.
Proof.
  cbv zeta.
  destruct (ManagerSpec.active_provider_reassignment (API := api_connector timing_out)
              "model1" "model2" "k1" "k2"
              (ApiConnector.DeepSeekConnector "k1")
              (ApiConnector.GeminiConnector "k2"))
    as (_ & H2 & H3 & _ & H4);
    try discriminate; try reflexivity.
  repeat split; assumption.
Defined.

Lemma empty_key_removes_connector_witness :
  let api := api_connector timing_out in
  let st0 := snd (set_api_key (API := api) "model1" "k1" init) in
  let st := snd (set_api_key (API := api) "model1" "" st0) in
  "model1" <> ""
  /\ PyDict.mem "model1" (connectors st0) = true
  /\ PyDict.mem "model1" (connectors st) = false
  /\ generate_code (API := api) "p" (Some "model1") temperature st []
     = (error_dict "Model model1 not available", st, []).
Proof.
  cbv zeta.
  destruct (ManagerSpec.empty_key_removes_connector (API := api_connector timing_out)
              "model1"
              (snd (set_api_key (API := api_connector timing_out)
                      "model1" "k1" init)))
    as (_ & Hc & _ & Hg).
  split; [discriminate|]. split; [reflexivity|]. split; [exact Hc|].
  apply (Hg ltac:(discriminate) "p" temperature []).
Defined.

(** C5 as stated fails on the credential entry: after the key of
    "model1" is set and then cleared, [api_keys] still has the entry,
    holding the empty string, and that is what [save_api_keys] writes. *)
Lemma empty_key_removes_connector_counterexample :
  let api := api_connector timing_out in
  let st0 := snd (set_api_key (API := api) "model1" "k1" init) in
  let st := snd (set_api_key (API := api) "model1" "" st0) in
  PyDict.mem "model1" (api_keys st) = true
  /\ api_keys st = [("model1", "")]
  /\ save_api_keys (fun _ => true) "data/keys.json" st []
     = (true, [("data/keys.json", [("model1", "")])]).
Proof.
  repeat split; reflexivity.
Qed.



End GatewaySpec.

(** ** The thin-wrapper front-end *)

Module WrapperSpec.

Import Str Py AIIntegration.

Lemma dispatch_method (what : string) (self : t) (model_name prompt mode : string)
    (call : t -> string -> string -> outcome value) :
  In (model_name, call) api_methods ->
  dispatch what self model_name prompt mode = caught what (call self prompt mode).
Proof.
  unfold api_methods. cbn [In].
  intros [E|[E|[E|[E|[E|[]]]]]]; injection E as <- <-; reflexivity.
Qed.

Lemma guarded_body (self : t) (model_name : string) (info : model_info)
    (body : model_info -> value) :
  PyDict.get model_name self = Some info ->
  has_key info = true ->
  guarded self model_name body = body info.
Proof. intros Hg Hk. unfold guarded. now rewrite Hg, Hk. Qed.

(** C8, amended.  For every provider of the closed set that has a key,
    code generation, bug fixing and test generation hand their prompt
    to the provider's method in mode "code", and documentation hands
    its prompt to it in mode "chat".  (Nothing is said of
    optimization.) *)
Theorem wrapper_delegation (self : t) (model_name : string)
    (call : t -> string -> string -> outcome value) (info : model_info) :
  In (model_name, call) api_methods ->
  PyDict.get model_name self = Some info ->
  has_key info = true ->
  (forall requirements language framework include_tests include_docs optimize,
      exists framework_text test_text doc_text optimize_text,
        generate_code self model_name requirements language framework
          include_tests include_docs optimize
        = caught "generate code"
            (call self
               (code_prompt language framework_text requirements test_text
                  doc_text optimize_text)
               "code"))
  /\ (forall code error_message language,
         fix_bugs self model_name code error_message language
         = caught "fix bugs"
             (call self (bugs_prompt language error_message code) "code"))
  /\ (forall code language test_framework,
         exists framework_text,
           generate_tests self model_name code language test_framework
           = caught "generate tests"
               (call self (tests_prompt framework_text language code) "code"))
  /\ (forall code language doc_format,
         generate_documentation self model_name code language doc_format
         = caught "generate documentation"
             (call self (documentation_prompt doc_format language code) "chat")).
Proof.
  intros Hin Hg Hk. repeat split; intros.
  - do 4 eexists. unfold generate_code.
    rewrite (guarded_body _ _ _ _ Hg Hk). cbv zeta.
    apply (dispatch_method _ _ _ _ _ _ Hin).
  - unfold fix_bugs. rewrite (guarded_body _ _ _ _ Hg Hk). cbv zeta.
    apply (dispatch_method _ _ _ _ _ _ Hin).
  - eexists. unfold generate_tests.
    rewrite (guarded_body _ _ _ _ Hg Hk). cbv zeta.
    apply (dispatch_method _ _ _ _ _ _ Hin).
  - unfold generate_documentation. rewrite (guarded_body _ _ _ _ Hg Hk).
    cbv zeta. apply (dispatch_method _ _ _ _ _ _ Hin).
Qed.

Lemma wrapper_delegation_witness :
  let self := snd (set_api_key "model3" "k3" AI_MODELS) in
  In ("model3", _call_model3_api) api_methods
  /\ generate_documentation self "model3" "f()" "python" "markdown"
     = VDict [("content", VStr "This is a sample response from the OpenAI API.")]
  /\ fix_bugs self "model3" "f()" "NameError" "python"
     = VDict [("code", VStr (sample_code "ChatGPT-5"));
              ("explanation",
               VStr "This code implements a basic solution based on your requirements.")].
Proof.
  cbv zeta.
  assert (Hin : In ("model3", _call_model3_api) api_methods)
    by (cbn; tauto).
  destruct (wrapper_delegation
              (snd (set_api_key "model3" "k3" AI_MODELS)) "model3"
              _call_model3_api
              {| name := "Model 3"; api_key := Some "k3";
                 endpoint := "https://api.openai.com/v1";
                 models := [("code", "gpt-5"); ("chat", "gpt-5");
                            ("vision", "gpt-5-vision")] |}
              Hin eq_refl eq_refl)
    as (_ & Hfix & _ & Hdoc).
  split; [exact Hin|]. split.
  - rewrite Hdoc. reflexivity.
  - rewrite Hfix. reflexivity.
Defined.

(** For a provider of the closed set that has a key, [optimize_code]
    hands its prompt to nobody. *)
Lemma optimize_code_not_implemented (self : t) (model_name : string)
    (info : model_info) (code language optimization_target : string) :
  In model_name ApiConnector.provider_ids ->
  PyDict.get model_name self = Some info ->
  has_key info = true ->
  optimize_code self model_name code language optimization_target
  = VDict (error_dict ("API integration not implemented for " ++ model_name)).
Proof.
  intros Hin Hg Hk. unfold optimize_code.
  rewrite (guarded_body _ _ _ _ Hg Hk). cbv zeta.
  cbn [In ApiConnector.provider_ids] in Hin.
  destruct Hin as [<-|[<-|[<-|[<-|[<-|[]]]]]]; reflexivity.
Qed.

(** C8 as stated fails: test generation uses mode "code", whose reply
    differs from the reply in mode "chat"; and optimization, for a
    provider of the closed set, reaches no provider method at all. *)
Lemma wrapper_delegation_counterexample :
  let self := snd (set_api_key "model1" "k1" AI_MODELS) in
  generate_tests self "model1" "f()" "python" None
  = caught "generate tests"
      (_call_model1_api self (tests_prompt "" "python" "f()") "code")
  /\ generate_tests self "model1" "f()" "python" None
     <> caught "generate tests"
          (_call_model1_api self (tests_prompt "" "python" "f()") "chat")
  /\ optimize_code self "model1" "f()" "python" "performance"
     = VDict (error_dict "API integration not implemented for model1")
  /\ optimize_code self "model1" "f()" "python" "performance"
     <> caught "optimize code"
          (_call_model1_api self (optimize_prompt "python" "performance" "f()")
             "code").
Proof.
  cbv zeta. repeat split; try reflexivity; vm_compute; discriminate.
Qed.

End WrapperSpec.

(* ================================================================== *)
(** * Further properties *)

(** ** Extraction: wrapping and stripping *)

Module ExtractMore.

Import Str Re Extract StrFacts ReFacts.

Lemma no_tick_app (a b : string) :
  no_tick (a ++ b) = no_tick a && no_tick b.
Proof.
  induction a as [|c a IH]; simpl; [reflexivity|].
  rewrite IH. now rewrite andb_assoc.
Qed.

(** No block starts at a character that is not a backtick. *)
Lemma match_at_not_tick (c : ascii) (s : string) :
  Ascii.eqb c "`"%char = false -> match_at fence_re (String c s) = None.
Proof.
  intros H. rewrite match_at_fence. unfold fence_direct, fence.
  cbn [strip_prefix]. rewrite Ascii.eqb_sym, H. reflexivity.
Qed.

Lemma no_tick_clear (pre s : string) : no_tick pre = true -> clear pre s.
Proof.
  induction pre as [|c pre IH]; cbn [no_tick clear]; [trivial|].
  intros H. apply andb_true_iff in H as [Hc Hp].
  apply negb_true_iff in Hc. split; [|now apply IH].
  cbn [append]. now apply match_at_not_tick.
Qed.

Lemma no_tick_no_fence (s : string) : no_tick s = true -> no_fence s = true.
Proof.
  induction s as [|c s IH]; cbn [no_tick no_fence].
  - intros _. now rewrite match_at_fence.
  - intros H. apply andb_true_iff in H as [Hc Hp].
    apply negb_true_iff in Hc. rewrite (match_at_not_tick c s Hc).
    now apply IH.
Qed.

(** In an interior without backticks the closing line is the first
    one that follows it. *)
Lemma closer_after (b rest : string) :
  no_tick b = true ->
  closer_at (b ++ nl ++ fence ++ rest) = Some (String.length b).
Proof.
  induction b as [|c b IH]; cbn [no_tick].
  - intros _. reflexivity.
  - intros H. apply andb_true_iff in H as [Hc Hb].
    apply negb_true_iff in Hc.
    cbn [append closer_at String.length].
    assert (E : strip_prefix (nl ++ fence) (String c (b ++ nl ++ fence ++ rest))
                = None).
    { unfold nl, fence. cbn [append strip_prefix].
      destruct (Ascii.eqb "010"%char c); [|reflexivity].
      destruct b as [|d b]; cbn [append].
      - reflexivity.
      - cbn [no_tick] in Hb. apply andb_true_iff in Hb as [Hd _].
        apply negb_true_iff in Hd. now rewrite Ascii.eqb_sym, Hd. }
    rewrite E, (IH Hb). reflexivity.
Qed.

Lemma match_at_wrapped (tag body rest : string) :
  all_word tag = true ->
  body <> "" ->
  no_tick body = true ->
  match_at fence_re (fence ++ tag ++ nl ++ body ++ nl ++ fence ++ rest)
  = Some (String.length (fence ++ tag ++ nl ++ body ++ nl ++ fence), Some body).
Proof.
  intros Ht Hne Hb. rewrite match_at_fence. unfold fence_direct.
  rewrite strip_prefix_app.
  destruct (skip_word_tag tag (body ++ nl ++ fence ++ rest) Ht) as [-> ->].
  rewrite strip_prefix_app.
  destruct body as [|c b]; [congruence|].
  cbn [no_tick] in Hb. apply andb_true_iff in Hb as [_ Hb].
  cbn [append]. rewrite (closer_after b rest Hb).
  f_equal. f_equal.
  - rewrite !length_append. change (String.length fence) with 3.
    change (String.length nl) with 1. cbn [String.length].
    rewrite !length_append. change (String.length fence) with 3.
    change (String.length nl) with 1. lia.
  - f_equal. cbn [take]. f_equal. apply take_app_length.
Qed.

(** *** Stripping *)

Lemma rstrip_cons (c : ascii) (s : string) :
  rstrip (String c s)
  = match rstrip s with
    | EmptyString => if is_space c then EmptyString else String c EmptyString
    | r => String c r
    end.
Proof. reflexivity. Qed.

Lemma rstrip_idempotent (s : string) : rstrip (rstrip s) = rstrip s.
Proof.
  induction s as [|c s IH]; [reflexivity|].
  rewrite rstrip_cons. destruct (rstrip s) as [|d r] eqn:E.
  - destruct (is_space c) eqn:Hc; [reflexivity|].
    rewrite rstrip_cons. cbn [rstrip]. now rewrite Hc.
  - rewrite rstrip_cons, IH. reflexivity.
Qed.

Lemma lstrip_head (s : string) (c : ascii) (r : string) :
  lstrip s = String c r -> is_space c = false.
Proof.
  induction s as [|d s IH]; cbn [lstrip]; [discriminate|].
  destruct (is_space d) eqn:Hd; [exact IH|].
  now intros [= <- _].
Qed.

Lemma rstrip_head (s : string) (c : ascii) (r : string) :
  rstrip s = String c r -> exists r', s = String c r'.
Proof.
  destruct s as [|d s]; cbn [rstrip]; [discriminate|].
  destruct (rstrip s); [destruct (is_space d); [discriminate|]|];
    intros [= <- _]; now eexists.
Qed.

Lemma rstrip_last (s init : string) (c : ascii) :
  rstrip s = init ++ String c "" -> is_space c = false.
Proof.
  revert init. induction s as [|d s IH]; intros init; cbn [rstrip].
  - destruct init; discriminate.
  - destruct (rstrip s) as [|e r] eqn:E.
    + destruct (is_space d) eqn:Hd; [destruct init; discriminate|].
      destruct init as [|x init]; cbn [append].
      * now intros [= <-].
      * intros [= _ H]. destruct init; discriminate.
    + destruct init as [|x init]; cbn [append].
      * discriminate.
      * intros [= _ H]. now apply (IH init).
Qed.

Lemma lstrip_fixed (s : string) :
  (forall c r, s = String c r -> is_space c = false) -> lstrip s = s.
Proof.
  destruct s as [|c s]; [reflexivity|].
  intros H. cbn [lstrip]. now rewrite (H c s eq_refl).
Qed.

Lemma strip_head (s : string) (c : ascii) (r : string) :
  strip s = String c r -> is_space c = false.
Proof.
  unfold strip. intros H.
  destruct (rstrip_head _ _ _ H) as [r' Hl]. now apply (lstrip_head s c r').
Qed.

Lemma strip_idempotent (s : string) : strip (strip s) = strip s.
Proof.
  unfold strip at 1.
  rewrite (lstrip_fixed (strip s)) by (intros c r; apply strip_head).
  unfold strip. apply rstrip_idempotent.
Qed.

(** X1.  Wrapping is undone: when the prose before and after and the
    code itself have no backtick, the tag is made of word characters
    and the code is not empty, the extraction of prose, fenced code and
    prose returns the code exactly and the two pieces of prose joined
    and stripped. *)
Theorem extract_wrapped (pre tag body post : string) :
  no_tick pre = true ->
  all_word tag = true ->
  body <> "" ->
  no_tick body = true ->
  no_tick post = true ->
  extract (pre ++ fence ++ tag ++ nl ++ body ++ nl ++ fence ++ post)
  = (body, strip (pre ++ post)).
Proof.
  intros Hpre Ht Hne Hb Hpost.
  set (blk := fence ++ tag ++ nl ++ body ++ nl ++ fence ++ post).
  pose proof (match_at_wrapped tag body post Ht Hne Hb) as Hm.
  fold blk in Hm.
  assert (Hdrop : drop (String.length (fence ++ tag ++ nl ++ body ++ nl ++ fence)) blk
                  = post).
  { unfold blk.
    replace (fence ++ tag ++ nl ++ body ++ nl ++ fence ++ post)
      with ((fence ++ tag ++ nl ++ body ++ nl ++ fence) ++ post)
      by (now rewrite !append_assoc).
    apply drop_app_length. }
  unfold extract.
  rewrite (findall_clear pre blk (no_tick_clear pre blk Hpre)).
  rewrite (sub_clear pre blk (no_tick_clear pre blk Hpre)).
  rewrite (findall_at_match blk _ _ Hm), (sub_at_match blk _ _ Hm), Hdrop.
  now rewrite (no_fence_sub post (no_tick_no_fence post Hpost)).
Qed.

Lemma extract_wrapped_witness :
  extract ("Use this: " ++ fence ++ "python" ++ nl ++ "print(1)" ++ nl
           ++ fence ++ " and run it. ")
  = ("print(1)", "Use this:  and run it.").
Proof.
  apply (extract_wrapped "Use this: " "python" "print(1)" " and run it. ");
    try reflexivity.
  discriminate.
Defined.

(** X2.  Whatever the text, the explanation that comes out neither
    starts nor ends with a whitespace character, and stripping it again
    changes nothing. *)
Theorem explanation_is_stripped (content : string) :
  let explanation := snd (extract content) in
  strip explanation = explanation
  /\ (forall c r, explanation = String c r -> is_space c = false)
  /\ (forall init c, explanation = init ++ String c "" -> is_space c = false).
Proof.
  cbv zeta. unfold extract. cbn [snd]. split; [apply strip_idempotent|].
  split.
  - intros c r. apply strip_head.
  - intros init c. unfold strip. apply rstrip_last.
Qed.

(** X25.  The code that comes out always occurs in the text as it
    stands: the text is something, then the code character for
    character, then something. *)
Theorem code_is_verbatim (content : string) :
  exists before after, content = before ++ fst (extract content) ++ after.
Proof.
  unfold extract. cbn [fst].
  destruct (no_fence content) eqn:Hn.
  - rewrite (no_fence_findall content Hn). exists "", "".
    cbn [append]. now rewrite append_nil_r.
  - destruct (leftmost_fence content Hn) as (pre & blk & len & cap & Ht & Hc & Hm).
    destruct (match_at_fence_sound blk len cap Hm)
      as (tag & body & rest & Hb & _ & _ & Hcap & _).
    subst content. rewrite (findall_clear pre blk Hc).
    rewrite (findall_at_match blk len cap Hm), Hcap.
    exists (pre ++ fence ++ tag ++ nl), (nl ++ fence ++ rest).
    rewrite Hb at 1. now rewrite !append_assoc.
Qed.

End ExtractMore.

(** ** The factory and the connectors on the wire *)

Module ConnectorMore.

Import Str Py ApiConnector Wire Extract.

(** X3.  The factory accepts exactly the five names: for one of them it
    returns a connector holding the key it was given (empty or not), for
    any other it raises [ValueError] naming the model. *)
Theorem factory_round_trip (model_name key : string) :
  match create_connector model_name key with
  | Ret c => In model_name provider_ids /\ api_key c = key
  | Raise e =>
      ~ In model_name provider_ids
      /\ e = {| exn_cls := ValueError;
                exn_msg := "Unknown model: " ++ model_name |}
  end.
Proof.
  unfold create_connector, provider_ids.
  repeat match goal with
         | |- context [String.eqb model_name ?k] =>
             destruct (String.eqb_spec model_name k) as [->|?];
             [cbn; tauto|]
         end.
  cbn. split; [|reflexivity]. intuition congruence.
Qed.

Lemma created_class (model_name key : string) (c : connector) :
  create_connector model_name key = Ret c ->
  c = {| cls := cls c; api_key := key; base_url := base_url c |}
  /\ model_name
     = match cls c with
       | DeepSeek => "model1"
       | Gemini => "model2"
       | OpenAI => "model3"
       | Grok => "model4"
       | Claude => "model5"
       end
  /\ urljoin (base_url c)
       match cls c with
       | DeepSeek | OpenAI | Grok => "chat/completions"
       | Gemini => "models/" ++ default_model Gemini ++ ":generateContent"
       | Claude => "messages"
       end
     = post_url (cls c).
Proof.
  unfold create_connector.
  repeat match goal with
         | |- context [String.eqb model_name ?k] =>
             destruct (String.eqb_spec model_name k) as [->|_];
             [intros [= <-]; repeat split; reflexivity|]
         end.
  discriminate.
Qed.

(** X4.  A call of [generate_code] on the connector the factory makes
    for a name sends exactly one request: a POST with a 30-second timeout
    and a JSON content type.  For "model1", "model3" and "model4" it goes
    to the chat-completions address of DeepSeek, OpenAI and Grok, with
    the key as a Bearer [Authorization] header; for "model2" to the
    Gemini address, with the key as the query parameter "key" and no
    [Authorization] header; for "model5" to the Anthropic address, with
    the key as the [x-api-key] header.  (Each address is the base address
    with its last segment replaced by the endpoint.) *)
Theorem one_request_per_call (net : network) (model_name key prompt : string)
    (temperature : float) (log : list request) (c : connector) :
  create_connector model_name key = Ret c ->
  exists rq,
    snd (generate_code net c prompt temperature log) = (log ++ [rq])%list
    /\ req_method rq = "POST"
    /\ req_timeout rq = 30%Z
    /\ PyDict.get "Content-Type" (req_headers rq) = Some "application/json"
    /\ req_url rq = post_url (cls c)
    /\ carries_key (cls c) key rq
    /\ ((model_name = "model1"
         /\ req_url rq = "https://api.deepseek.com/chat/completions"
         /\ PyDict.get "Authorization" (req_headers rq) = Some ("Bearer " ++ key)
         /\ req_params rq = None)
        \/ (model_name = "model2"
            /\ req_url rq
               = "https://generativelanguage.googleapis.com/models/gemini-pro-code:generateContent"
            /\ req_params rq = Some [("key", key)]
            /\ PyDict.get "Authorization" (req_headers rq) = None)
        \/ (model_name = "model3"
            /\ req_url rq = "https://api.openai.com/chat/completions"
            /\ PyDict.get "Authorization" (req_headers rq) = Some ("Bearer " ++ key)
            /\ req_params rq = None)
        \/ (model_name = "model4"
            /\ req_url rq = "https://api.grok.com/chat/completions"
            /\ PyDict.get "Authorization" (req_headers rq) = Some ("Bearer " ++ key)
            /\ req_params rq = None)
        \/ (model_name = "model5"
            /\ req_url rq = "https://api.anthropic.com/messages"
            /\ PyDict.get "x-api-key" (req_headers rq) = Some key
            /\ PyDict.get "Authorization" (req_headers rq) = None
            /\ req_params rq = None)).
Proof.
  intros Hc. destruct (created_class model_name key c Hc) as (Hrec & Hname & Hurl).
  rewrite Hrec. rewrite Hrec in Hurl. cbn [cls base_url] in Hurl.
  unfold generate_code, chat_generate_code, gemini_generate_code,
    claude_generate_code, _make_request.
  cbn [cls api_key base_url].
  destruct (cls c); subst model_name; eexists; cbn [snd];
    (split; [reflexivity|]);
    cbn [req_method req_timeout req_url req_headers req_params carries_key];
    rewrite Hurl; cbn [post_url];
    (split; [reflexivity|]); (split; [reflexivity|]); (split; [reflexivity|]);
    (split; [reflexivity|]); (split; [repeat split; reflexivity|]).
  - left. repeat split; reflexivity.
  - right; left. repeat split; reflexivity.
  - do 2 right; left. repeat split; reflexivity.
  - do 3 right; left. repeat split; reflexivity.
  - do 4 right. repeat split; reflexivity.
Qed.

Lemma one_request_per_call_witness :
  exists rq,
    snd (generate_code Scenario.timing_out (GeminiConnector "k2") "p"
           Scenario.temperature [])
    = [rq]
    /\ req_url rq
       = "https://generativelanguage.googleapis.com/models/gemini-pro-code:generateContent"
    /\ req_params rq = Some [("key", "k2")].
Proof.
  destruct (one_request_per_call Scenario.timing_out "model2" "k2" "p"
              Scenario.temperature [] (GeminiConnector "k2") eq_refl)
    as (rq & Hlog & _ & _ & _ & Hurl & Hkey & _).
  exists rq. repeat split; [exact Hlog | exact Hurl | exact (proj1 Hkey)].
Defined.

(** What a connector returns, given what the session does with any
    request. *)
Lemma generate_code_answer (net : network) (self : connector) (prompt : string)
    (temperature : float) (log : list request) (o : outcome response) :
  (forall rq, net log rq = o) ->
  fst (generate_code net self prompt temperature log)
  = (r <- request_result (exchange o) ;; process (content_path (cls self)) r).
Proof.
  intros Hnet.
  unfold generate_code, chat_generate_code, gemini_generate_code,
    claude_generate_code, _make_request, request_result, exchange, content_path.
  destruct (cls self); rewrite Hnet; reflexivity.
Qed.

Lemma process_extracted (content_of : value -> outcome value)
    (body : PyDict.t value) (content : string) :
  PyDict.mem "error" body = false ->
  content_of (VDict body) = Ret (VStr content) ->
  process content_of (VDict body) = Ret (VDict (extracted content)).
Proof.
  intros He Hc. unfold process, extracted. cbn [has_error bind].
  rewrite He, Hc. cbn [bind as_text].
  now destruct (extract content).
Qed.

Lemma process_dict (content_of : value -> outcome value) (body : PyDict.t value) :
  exists d,
    process content_of (VDict body) = Ret (VDict d)
    /\ (PyDict.mem "error" d = true \/ exists content, d = extracted content).
Proof.
  unfold process. cbn [has_error bind].
  destruct (PyDict.mem "error" body) eqn:He.
  - exists body. split; [reflexivity | now left].
  - destruct (c <- content_of (VDict body) ;; as_text c) as [content|e] eqn:Hc.
    + exists (extracted content). split; [|right; now exists content].
      unfold extracted. now destruct (extract content).
    + eexists. split; [reflexivity | now left].
Qed.

(** X5.  When the session answers with a JSON object, or the exchange
    fails with a request exception, [generate_code] of any connector
    returns a dictionary that either has an ["error"] entry or is
    exactly the code and the explanation extracted from some text.
    Nothing is raised. *)
Theorem connector_result_shape (net : network) (self : connector)
    (prompt : string) (temperature : float) (log : list request)
    (o : outcome response) :
  (forall rq, net log rq = o) ->
  (exists body, exchange o = Ret (VDict body))
  \/ (exists e, exchange o = Raise e /\ is_request_exception (exn_cls e) = true) ->
  exists d,
    fst (generate_code net self prompt temperature log) = Ret (VDict d)
    /\ (PyDict.mem "error" d = true \/ exists content, d = extracted content).
Proof.
  intros Hnet H. rewrite (generate_code_answer net self _ _ _ o Hnet).
  destruct H as [[body ->] | (e & -> & He)]; cbn [request_result bind].
  - apply process_dict.
  - rewrite He. cbn [bind]. apply process_dict.
Qed.

Lemma connector_result_shape_witness :
  exists d,
    fst (generate_code (Scenario.answering 200 (VDict [("choices", VList [])]))
           (GrokConnector "k") "p" Scenario.temperature [])
    = Ret (VDict d)
    /\ PyDict.mem "error" d = true.
Proof.
  destruct (connector_result_shape
              (Scenario.answering 200 (VDict [("choices", VList [])]))
              (GrokConnector "k") "p" Scenario.temperature []
              (Ret {| status_code := 200; reason := "OK"; resp_url := "";
                      resp_json := Ret (VDict [("choices", VList [])]) |})
              (fun _ => eq_refl)
              (or_introl (ex_intro _ [("choices", VList [])] eq_refl)))
    as (d & Hd & _).
  exists d. split; [exact Hd|].
  cbv in Hd. injection Hd as <-. reflexivity.
Defined.

(** X6.  [generate_code] of a connector raises in two cases only: the
    exchange raised something that is not a request exception (the same
    exception comes out), or the body parsed to a number, a boolean or
    null (a [TypeError] comes out).  In every other case it returns. *)
Theorem connector_raises_only (net : network) (self : connector)
    (prompt : string) (temperature : float) (log : list request)
    (o : outcome response) :
  (forall rq, net log rq = o) ->
  match fst (generate_code net self prompt temperature log) with
  | Raise e =>
      (exchange o = Raise e /\ is_request_exception (exn_cls e) = false)
      \/ (exists v, exchange o = Ret v /\ scalar v = true
                    /\ exn_cls e = TypeError)
  | Ret _ =>
      (exists e, exchange o = Raise e /\ is_request_exception (exn_cls e) = true)
      \/ (exists v, exchange o = Ret v /\ scalar v = false)
  end.
Proof.
  intros Hnet. rewrite (generate_code_answer net self _ _ _ o Hnet).
  destruct (exchange o) as [v|e]; cbn [request_result bind].
  - destruct v; unfold process; cbn [has_error bind raise];
      try (right; eexists; repeat split; reflexivity).
    + destruct (contains "error" s); cbn;
        [|destruct (content_path (cls self) (VStr s)) as [[]|]; cbn];
        right; eexists; split; reflexivity.
    + destruct (existsb value_is_error_str l); cbn;
        [|destruct (content_path (cls self) (VList l)) as [[]|]; cbn];
        right; eexists; split; reflexivity.
    + destruct (PyDict.mem "error" d); cbn;
        [|destruct (content_path (cls self) (VDict d)) as [[]|]; cbn;
          try destruct (extract _)];
        right; eexists; split; reflexivity.
  - destruct (is_request_exception (exn_cls e)) eqn:He; cbn [bind].
    + destruct (process_dict (content_path (cls self))
                  (error_dict (exn_msg e))) as (d & -> & _).
      left. now exists e.
    + left. now split.
Qed.

Lemma connector_raises_only_witness :
  fst (generate_code (Scenario.answering 200 (VInt 5)) (OpenAIConnector "k") "p"
         Scenario.temperature [])
  = raise TypeError "argument of type 'int' is not iterable".
Proof.
  pose proof (connector_raises_only (Scenario.answering 200 (VInt 5))
                (OpenAIConnector "k") "p" Scenario.temperature []
                (Ret {| status_code := 200; reason := "OK"; resp_url := "";
                        resp_json := Ret (VInt 5) |})
                (fun _ => eq_refl)) as H.
  destruct (fst (generate_code _ _ _ _ _)) eqn:E in H |- *;
    cbv in E; [discriminate E | now injection E as <-].
Defined.

(** X7.  A JSON object that has neither an ["error"] entry nor the
    first key of the provider's path is reported as a success with empty
    code and empty explanation. *)
Theorem missing_path_is_empty_success (net : network) (self : connector)
    (prompt : string) (temperature : float) (log : list request)
    (o : outcome response) (body : PyDict.t value) :
  (forall rq, net log rq = o) ->
  exchange o = Ret (VDict body) ->
  PyDict.mem "error" body = false ->
  PyDict.mem (top_key (cls self)) body = false ->
  fst (generate_code net self prompt temperature log)
  = Ret (VDict [("code", VStr ""); ("explanation", VStr "")]).
Proof.
  intros Hnet Hex He Hk. rewrite (generate_code_answer net self _ _ _ o Hnet).
  rewrite Hex. cbn [request_result bind].
  rewrite (process_extracted _ body "" He); [reflexivity|].
  unfold PyDict.mem in Hk.
  unfold content_path, choices_content, candidates_content, blocks_content.
  destruct (cls self); cbn [top_key] in Hk; cbn [get];
    destruct (PyDict.get _ body); try discriminate; reflexivity.
Qed.

Lemma missing_path_is_empty_success_witness :
  fst (generate_code (Scenario.answering 200 (VDict [("id", VStr "x")]))
         (ClaudeConnector "k") "p" Scenario.temperature [])
  = Ret (VDict [("code", VStr ""); ("explanation", VStr "")]).
Proof.
  apply (missing_path_is_empty_success
           (Scenario.answering 200 (VDict [("id", VStr "x")]))
           (ClaudeConnector "k") "p" Scenario.temperature []
           (Ret {| status_code := 200; reason := "OK"; resp_url := "";
                   resp_json := Ret (VDict [("id", VStr "x")]) |})
           [("id", VStr "x")]);
    reflexivity.
Defined.

(** X8.  Each class finds the generated text where its provider puts
    it: on a body of the provider's shape carrying a text, the result is
    the code and the explanation extracted from that text. *)
Theorem provider_path_is_read (net : network) (self : connector)
    (prompt : string) (temperature : float) (log : list request)
    (o : outcome response) (text : string) :
  (forall rq, net log rq = o) ->
  exchange o = Ret (VDict (reply_for (cls self) text)) ->
  fst (generate_code net self prompt temperature log)
  = Ret (VDict (extracted text)).
Proof.
  intros Hnet Hex. rewrite (generate_code_answer net self _ _ _ o Hnet).
  rewrite Hex. cbn [request_result bind].
  apply process_extracted; destruct (cls self); reflexivity.
Qed.

Lemma provider_path_is_read_witness :
  fst (generate_code
         (Scenario.answering 200
            (VDict (reply_for Gemini ("```" ++ nl ++ "x" ++ nl ++ "```"))))
         (GeminiConnector "k") "p" Scenario.temperature [])
  = Ret (VDict [("code", VStr "x"); ("explanation", VStr "")]).
Proof.
  apply (provider_path_is_read
           (Scenario.answering 200
              (VDict (reply_for Gemini ("```" ++ nl ++ "x" ++ nl ++ "```"))))
           (GeminiConnector "k") "p" Scenario.temperature []
           (Ret {| status_code := 200; reason := "OK"; resp_url := "";
                   resp_json :=
                     Ret (VDict (reply_for Gemini
                                   ("```" ++ nl ++ "x" ++ nl ++ "```"))) |})
           ("```" ++ nl ++ "x" ++ nl ++ "```"));
    [intros rq; reflexivity | reflexivity].
Defined.

End ConnectorMore.

(** ** The manager: selection, overwriting, what is kept in step *)

Module ManagerMore.

Import Str Py ModelManager PyDictFacts.

Section Generic.

Context {C W : Type} {API : ConnectorAPI C W}.

Implicit Types (self : ModelManager.t C) (w : W).

Lemma keys_set_present {V : Type} (d : PyDict.t V) (k : string) (v : V) :
  PyDict.mem k d = true -> PyDict.keys (PyDict.set k v d) = PyDict.keys d.
Proof.
  unfold PyDict.mem, PyDict.keys.
  induction d as [|[k' v'] d IH]; cbn; [discriminate|].
  destruct (String.eqb k k') eqn:E; cbn; [reflexivity|].
  intros H. now rewrite IH.
Qed.

(** X9.  With no active model, a capability call that names nobody (or
    names the empty string) returns "No active model set"; the manager
    and what the connectors act on are untouched. *)
Theorem no_selection_error (c : capability) (model_name : option string)
    (temperature : float) self w :
  active_model self = None ->
  model_name = None \/ model_name = Some "" ->
  perform c model_name temperature self w
  = (error_dict "No active model set", self, w).
Proof.
  intros Ha Hm.
  assert (H : forall prompt,
             generate_code prompt model_name temperature self w
             = (error_dict "No active model set", self, w)).
  { intros prompt. unfold generate_code.
    destruct Hm as [-> | ->]; cbn; now rewrite Ha. }
  destruct c; apply H.
Qed.

(** X10.  [set_active_model] succeeds exactly when the name has a
    connector.  When it fails the manager is unchanged; when it
    succeeds only the active model changes, and from then on a
    capability call that names nobody does what the same call naming
    that model does. *)
Theorem set_active_model_selects (model_name : string) self :
  let st := snd (set_active_model model_name self) in
  fst (set_active_model model_name self) = PyDict.mem model_name (connectors self)
  /\ (PyDict.mem model_name (connectors self) = false -> st = self)
  /\ (PyDict.mem model_name (connectors self) = true ->
      active_model st = Some model_name
      /\ connectors st = connectors self
      /\ api_keys st = api_keys self
      /\ forall c temperature w,
          perform c None temperature st w
          = perform c (Some model_name) temperature st w).
Proof.
  cbv zeta. unfold set_active_model.
  destruct (PyDict.mem model_name (connectors self)) eqn:Hm; cbn [fst snd].
  - split; [reflexivity|]. split; [discriminate|]. intros _.
    repeat split.
    intros c temperature w.
    assert (H : forall prompt,
               generate_code prompt None temperature
                 (with_active_model self (Some model_name)) w
               = generate_code prompt (Some model_name) temperature
                   (with_active_model self (Some model_name)) w).
    { intros prompt. unfold generate_code.
      cbn [truthy_opt active_model with_active_model].
      destruct (truthy model_name) eqn:E; cbv iota; rewrite ?E; reflexivity. }
    destruct c; apply H.
  - split; [reflexivity|]. split; [reflexivity | discriminate].
Qed.

(** X11.  Setting a new non-empty key for a provider that already has a
    connector replaces the connector and the stored key in place: the
    list of available models is the same, in the same order, the active
    model is the same, and no other provider's entry changes. *)
Theorem key_overwrite_in_place (model_name key : string) (c : C) self :
  key <> "" ->
  create_connector model_name key = Ret c ->
  PyDict.mem model_name (connectors self) = true ->
  active_model self <> None ->
  let st := snd (set_api_key model_name key self) in
  PyDict.get model_name (connectors st) = Some c
  /\ PyDict.get model_name (api_keys st) = Some key
  /\ get_available_models st = get_available_models self
  /\ active_model st = active_model self
  /\ forall other, other <> model_name ->
       PyDict.get other (connectors st) = PyDict.get other (connectors self)
       /\ PyDict.get other (api_keys st) = PyDict.get other (api_keys self).
Proof.
  intros Hk Hc Hm Ha. cbv zeta.
  rewrite (ManagerSpec.set_api_key_stored model_name key c self Hk Hc).
  cbn [connectors api_keys active_model]. unfold get_available_models.
  cbn [connectors].
  split; [apply get_set_same|]. split; [apply get_set_same|].
  split; [now apply keys_set_present|].
  split; [destruct (active_model self); congruence|].
  intros other Ho. split; apply get_set_other; congruence.
Qed.

(** *** Some model is active whenever one is available *)

Lemma set_api_key_some_active model_name key self :
  some_active self -> some_active (snd (set_api_key model_name key self)).
Proof.
  unfold some_active, set_api_key. intros Hinv.
  destruct (truthy key).
  - destruct (create_connector model_name key) as [c|e]; cbn [snd].
    + destruct (active_model self) eqn:Ha;
        unfold with_active_model, with_connectors, with_api_keys; cbn;
        rewrite ?Ha; discriminate.
    + exact Hinv.
  - cbn.
    set (self1 := if PyDict.mem model_name (connectors self)
                  then with_connectors
                         (with_api_keys self
                            (PyDict.set model_name key (api_keys self)))
                         (PyDict.del model_name (connectors self))
                  else with_api_keys self
                         (PyDict.set model_name key (api_keys self))).
    assert (Hact : active_model self1 = active_model self)
      by (unfold self1; now destruct (PyDict.mem _ _)).
    unfold active_is. rewrite Hact.
    destruct (active_model self) as [a|] eqn:Ha.
    + destruct (String.eqb a model_name); cbn.
      * destruct (connectors self1) as [|[k v] d]; [reflexivity | discriminate].
      * intros H. rewrite Hact in H. discriminate.
    + intros _. unfold self1. rewrite (Hinv eq_refl). cbn.
      exact (Hinv eq_refl).
Qed.

Lemma load_api_keys_some_active file_path fs self :
  some_active self -> some_active (snd (load_api_keys file_path self fs)).
Proof.
  unfold load_api_keys. destruct (PyDict.get file_path fs) as [keys|];
    cbn [snd]; [|trivial].
  revert self. induction keys as [|[k v] keys IH]; intros self Hinv; cbn;
    [exact Hinv|].
  apply IH. now apply set_api_key_some_active.
Qed.

(** X12.  After any sequence of calls on a fresh manager, there is no
    active model only when no model is available: the active model is
    unset exactly when [connectors] is empty. *)
Theorem active_unset_iff_none_available (ops : list op) w :
  let st := fst (run ops w) in
  active_model st = None <-> get_available_models st = [].
Proof.
  cbv zeta. split.
  - assert (H : some_active (fst (run ops w))).
    { unfold run.
      assert (H0 : some_active (fst (init (C := C), w))) by (intros _; reflexivity).
      revert H0. generalize (init (C := C), w).
      induction ops as [|o ops IH]; intros st H0; cbn [fold_left]; [exact H0|].
      apply IH. destruct st as [self w0]. cbn [fst] in H0.
      destruct o as [m k|m|p fs|c mn t]; cbn [step fst].
      - now apply set_api_key_some_active.
      - unfold set_active_model.
        destruct (PyDict.mem m (connectors self)); cbn; [discriminate | exact H0].
      - now apply load_api_keys_some_active.
      - pose proof (ManagerSpec.perform_state c mn t self w0) as Hs.
        destruct (perform c mn t self w0) as [[r self'] w']. cbn in *.
        now subst. }
    intros Ha. unfold get_available_models. now rewrite (H Ha).
  - intros Hav. destruct (active_model (fst (run ops w))) as [a|] eqn:Ha;
      [|reflexivity].
    pose proof (ManagerSpec.run_available ops w a Ha) as Hmem.
    unfold get_available_models, PyDict.keys in Hav.
    destruct (connectors (fst (run ops w))); [discriminate Hmem | discriminate Hav].
Qed.

End Generic.

Lemma set_active_model_selects_witness :
  let api := api_connector Scenario.timing_out in
  let st0 := snd (set_api_key (API := api) "model2" "k2"
                    (snd (set_api_key (API := api) "model1" "k1" init))) in
  PyDict.mem "model2" (connectors st0) = true
  /\ active_model st0 = Some "model1"
  /\ active_model (snd (set_active_model "model2" st0)) = Some "model2".
Proof.
  cbv zeta. split; [reflexivity|]. split; [reflexivity|].
  apply (set_active_model_selects
           (API := api_connector Scenario.timing_out) "model2"
           (snd (set_api_key (API := api_connector Scenario.timing_out)
                   "model2" "k2"
                   (snd (set_api_key (API := api_connector Scenario.timing_out)
                           "model1" "k1" init))))).
  reflexivity.
Defined.

Lemma key_overwrite_in_place_witness :
  let api := api_connector Scenario.timing_out in
  let st0 := snd (set_api_key (API := api) "model2" "k2"
                    (snd (set_api_key (API := api) "model1" "k1" init))) in
  let st := snd (set_api_key (API := api) "model1" "new" st0) in
  get_available_models st = ["model1"; "model2"]
  /\ PyDict.get "model1" (api_keys st) = Some "new".
Proof.
  cbv zeta.
  destruct (key_overwrite_in_place
              (API := api_connector Scenario.timing_out) "model1" "new"
              (ApiConnector.DeepSeekConnector "new")
              (snd (set_api_key (API := api_connector Scenario.timing_out)
                      "model2" "k2"
                      (snd (set_api_key
                              (API := api_connector Scenario.timing_out)
                              "model1" "k1" init)))))
    as (_ & Hkey & Hav & _); try reflexivity; try discriminate.
  split; [rewrite Hav; reflexivity | exact Hkey].
Defined.

End ManagerMore.

(** ** The manager over the real connectors: credentials, persistence,
       failures *)

Module GatewayMore.

Import Str Py PyDictFacts Wire Kept.
Import ApiConnector(network, request, response, connector, provider_ids, failed).
Import ModelManager.

Lemma no_selection_error_witness :
  perform (API := api_connector Scenario.timing_out) (FixBugs "f()" "boom") None
    Scenario.temperature init []
  = (error_dict "No active model set", init, []).
Proof.
  apply (ManagerMore.no_selection_error
           (API := api_connector Scenario.timing_out)
           (FixBugs "f()" "boom") None Scenario.temperature init []).
  - reflexivity.
  - now left.
Defined.

(** *** Dictionaries without repeated keys *)

Section Lists.

Context {V : Type}.
Implicit Types (d : PyDict.t V) (k : string) (v : V).

Lemma mem_false_not_in d k : PyDict.mem k d = false <-> ~ In k (PyDict.keys d).
Proof.
  unfold PyDict.mem, PyDict.keys. induction d as [|[k' v'] d IH]; cbn.
  - tauto.
  - destruct (String.eqb_spec k k') as [->|Hne].
    + split; [discriminate | intros H; exfalso; apply H; now left].
    + rewrite IH. split; [intros H [E|E]; congruence | tauto].
Qed.

Lemma set_fresh d k v :
  PyDict.mem k d = false -> PyDict.set k v d = (d ++ [(k, v)])%list.
Proof.
  unfold PyDict.mem. induction d as [|[k' v'] d IH]; cbn; [reflexivity|].
  destruct (String.eqb k k'); [discriminate|]. intros H. now rewrite IH.
Qed.

Lemma keys_set d k v :
  PyDict.keys (PyDict.set k v d)
  = if PyDict.mem k d then PyDict.keys d else (PyDict.keys d ++ [k])%list.
Proof.
  destruct (PyDict.mem k d) eqn:Hm.
  - now apply ManagerMore.keys_set_present.
  - rewrite (set_fresh d k v Hm). unfold PyDict.keys. now rewrite map_app.
Qed.

Lemma nodup_set d k v :
  NoDup (PyDict.keys d) -> NoDup (PyDict.keys (PyDict.set k v d)).
Proof.
  intros H. rewrite keys_set. destruct (PyDict.mem k d) eqn:Hm; [exact H|].
  apply mem_false_not_in in Hm.
  apply NoDup_app; [exact H | repeat constructor; intros [] | ].
  intros x Hx [<-|[]]. contradiction.
Qed.

Lemma fold_set_append (l acc : PyDict.t V) :
  NoDup (PyDict.keys acc ++ PyDict.keys l) ->
  fold_left (fun d kv => PyDict.set (fst kv) (snd kv) d) l acc = (acc ++ l)%list.
Proof.
  revert acc. induction l as [|[k v] l IH]; intros acc H; cbn.
  - now rewrite app_nil_r.
  - assert (Hk : PyDict.mem k acc = false).
    { apply mem_false_not_in. intros Hin.
      apply NoDup_remove_2 in H. apply H. apply in_or_app. now left. }
    rewrite (set_fresh acc k v Hk). rewrite IH.
    + now rewrite <- app_assoc.
    + unfold PyDict.keys in *. rewrite map_app. cbn.
      rewrite <- app_assoc. exact H.
Qed.

End Lists.

Section OverNetwork.

Variable net : network.

Implicit Types (self : ModelManager.t connector).

Lemma set_api_key_keys model_name key self :
  api_keys (snd (set_api_key (API := api_connector net) model_name key self))
  = PyDict.set model_name key (api_keys self).
Proof.
  unfold set_api_key. destruct (truthy key).
  - destruct (create_connector model_name key); cbn; [|reflexivity].
    now destruct (active_model self).
  - cbn. destruct (PyDict.mem model_name (connectors self)); cbn;
      now destruct (active_is _ model_name).
Qed.

(** Whether the factory accepts a name does not depend on the key. *)
Lemma factory_by_name (model_name key key' : string) (e : exn) :
  ApiConnector.create_connector model_name key = Raise e ->
  exists e', ApiConnector.create_connector model_name key' = Raise e'.
Proof.
  unfold ApiConnector.create_connector.
  repeat match goal with
         | |- context [String.eqb model_name ?k] =>
             destruct (String.eqb model_name k); [discriminate|]
         end.
  intros _. now eexists.
Qed.

Lemma set_api_key_connectors model_name key self (x : string) :
  PyDict.get x (connectors (snd (set_api_key (API := api_connector net)
                                   model_name key self)))
  = if truthy key then
      match ApiConnector.create_connector model_name key with
      | Ret c => if String.eqb model_name x then Some c
                 else PyDict.get x (connectors self)
      | Raise _ => PyDict.get x (connectors self)
      end
    else if String.eqb model_name x then None
         else PyDict.get x (connectors self).
Proof.
  unfold set_api_key. destruct (truthy key).
  - cbn [create_connector api_connector].
    destruct (ApiConnector.create_connector model_name key) as [c|e];
      [|reflexivity].
    assert (E : forall st : ModelManager.t connector,
               connectors (match active_model st with
                           | None => with_active_model st (Some model_name)
                           | Some _ => st
                           end) = connectors st)
      by (intros st; now destruct (active_model st)).
    cbn [snd]. rewrite E. cbn [connectors with_connectors].
    destruct (String.eqb_spec model_name x) as [->|Hne];
      [apply get_set_same | now apply get_set_other].
  - cbn [snd].
    assert (E : forall st : ModelManager.t connector,
               connectors (if active_is st model_name
                           then with_active_model st
                                  (PyDict.first_key (connectors st))
                           else st) = connectors st)
      by (intros st; now destruct (active_is st model_name)).
    rewrite E.
    destruct (PyDict.mem model_name
                (connectors (with_api_keys self
                               (PyDict.set model_name key (api_keys self)))))
      eqn:Hm; cbn [connectors with_connectors with_api_keys] in *.
    + destruct (String.eqb_spec model_name x) as [->|Hne];
        [apply get_del_same | now apply get_del_other].
    + destruct (String.eqb_spec model_name x) as [->|Hne]; [|reflexivity].
      unfold PyDict.mem in Hm.
      now destruct (PyDict.get x (connectors self)).
Qed.

Lemma set_api_key_mirrors model_name key self :
  mirrors self ->
  mirrors (snd (set_api_key (API := api_connector net) model_name key self)).
Proof.
  intros Hinv m. rewrite set_api_key_keys, set_api_key_connectors.
  destruct (String.eqb_spec model_name m) as [->|Hne].
  - rewrite get_set_same. unfold connector_for.
    destruct (truthy key); [|reflexivity].
    destruct (ApiConnector.create_connector m key) as [c|e] eqn:Hc;
      [reflexivity|].
    rewrite Hinv. unfold connector_for.
    destruct (PyDict.get m (api_keys self)) as [k0|]; [|reflexivity].
    destruct (truthy k0); [|reflexivity].
    destruct (factory_by_name m key k0 e Hc) as [e' ->]. reflexivity.
  - rewrite get_set_other by exact Hne. rewrite <- Hinv.
    destruct (truthy key); [|reflexivity].
    now destruct (ApiConnector.create_connector model_name key).
Qed.

Lemma replay_mirrors (keys : PyDict.t string) self :
  mirrors self ->
  mirrors (fold_left (fun st kv => snd (set_api_key (API := api_connector net) (fst kv) (snd kv) st))
             keys self).
Proof.
  revert self. induction keys as [|[k v] keys IH]; intros self H; cbn;
    [exact H|].
  apply IH. now apply set_api_key_mirrors.
Qed.

Lemma replay_keys (keys : PyDict.t string) self :
  api_keys (fold_left (fun st kv => snd (set_api_key (API := api_connector net) (fst kv) (snd kv) st))
              keys self)
  = fold_left (fun d kv => PyDict.set (fst kv) (snd kv) d) keys (api_keys self).
Proof.
  revert self. induction keys as [|[k v] keys IH]; intros self; cbn;
    [reflexivity|].
  now rewrite IH, set_api_key_keys.
Qed.

Lemma step_kept (st : ModelManager.t connector * list request) (o : op) :
  kept (fst st) -> kept (fst (step (API := api_connector net) st o)).
Proof.
  destruct st as [self w]. cbn [fst]. intros [Hm Hn].
  destruct o as [m k|m|p fs|c mn t]; cbn [step fst].
  - split; [now apply set_api_key_mirrors|].
    rewrite set_api_key_keys. now apply nodup_set.
  - unfold set_active_model. destruct (PyDict.mem m (connectors self)); cbn;
      now split.
  - unfold load_api_keys. destruct (PyDict.get p fs) as [keys|]; cbn [snd];
      [|now split].
    split; [now apply replay_mirrors|].
    rewrite replay_keys. clear Hm. revert Hn. generalize (api_keys self).
    induction keys as [|[k v] keys IH]; intros d Hd; cbn; [exact Hd|].
    apply IH. now apply nodup_set.
  - pose proof (ManagerSpec.perform_state (API := api_connector net) c mn t self w) as Hs.
    destruct (perform c mn t self w) as [[r self'] w']. cbn in *. subst.
    now split.
Qed.

Lemma run_kept (ops : list op) (log : list request) :
  kept (fst (run (API := api_connector net) ops log)).
Proof.
  unfold run.
  assert (H0 : kept (fst (init (C := connector), log))).
  { split; [intros m; reflexivity | constructor]. }
  revert H0. generalize (init (C := connector), log).
  induction ops as [|o ops IH]; intros st H; cbn; [exact H|].
  apply IH. now apply step_kept.
Qed.

(** X13.  After any sequence of calls on a fresh manager, the stored
    connectors are exactly what the factory makes of the stored keys: a
    name has a connector when, and only when, its stored key is not
    empty and the factory accepts the name, and the connector is the one
    built from that key. *)
Theorem connectors_mirror_keys (ops : list op) (log : list request)
    (model_name : string) :
  let st := fst (run (API := api_connector net) ops log) in
  PyDict.get model_name (connectors st)
  = connector_for model_name (PyDict.get model_name (api_keys st)).
Proof. cbv zeta. apply (proj1 (run_kept ops log)). Qed.

(** X14.  Saving and loading give the credentials back: after any
    sequence of calls, a [save_api_keys] that succeeds followed by
    [load_api_keys] of the same path into a fresh manager yields the
    same [api_keys], in the same order, and for every name the same
    connector.  (The active model is not saved.) *)
Theorem save_load_round_trip (ops : list op) (log : list request)
    (writable : string -> bool) (file_path : string) (fs : files) :
  has_dirname file_path = true ->
  writable file_path = true ->
  let st := fst (run (API := api_connector net) ops log) in
  let saved := save_api_keys writable file_path st fs in
  let loaded := load_api_keys (API := api_connector net) file_path init (snd saved) in
  fst saved = true
  /\ fst loaded = true
  /\ api_keys (snd loaded) = api_keys st
  /\ forall m, PyDict.get m (connectors (snd loaded))
              = PyDict.get m (connectors st).
Proof.
  intros Hd Hw. cbv zeta. destruct (run_kept ops log) as [Hm Hn].
  unfold save_api_keys. rewrite Hd, Hw. cbn [andb fst snd].
  unfold load_api_keys. rewrite get_set_same. cbn [fst snd].
  split; [reflexivity|]. split; [reflexivity|].
  assert (Hkeys : api_keys
            (fold_left
               (fun st kv => snd (set_api_key (API := api_connector net) (fst kv) (snd kv) st))
               (api_keys (fst (run (API := api_connector net) ops log))) init)
            = api_keys (fst (run (API := api_connector net) ops log))).
  { rewrite replay_keys. cbn [api_keys init].
    now rewrite fold_set_append. }
  split; [exact Hkeys|].
  intros m. rewrite (replay_mirrors _ init); [|intros k; reflexivity].
  now rewrite Hkeys, Hm.
Qed.

Lemma failed_call (self : connector) (prompt : string) (temperature : float)
    (log : list request) (detail : string) :
  (forall rq, failed (net log rq) detail) ->
  exists rq,
    ApiConnector.generate_code net self prompt temperature log
    = (Ret (VDict (error_dict detail)), (log ++ [rq])%list).
Proof.
  intros Hnet.
  unfold ApiConnector.generate_code, ApiConnector.chat_generate_code,
    ApiConnector.gemini_generate_code, ApiConnector.claude_generate_code.
  destruct (ApiConnector.cls self);
    match goal with
    | |- context [ApiConnector._make_request net self ?m ?e ?d ?h ?p log] =>
        destruct (ConnectorSpec.make_request_failed net self m e d h p log
                    detail Hnet) as [rq ->]
    end;
    exists rq; reflexivity.
Qed.

(** X15.  When the exchange with the named provider fails (timeout,
    transport error, status 400 to 599), every capability call returns
    a dictionary with the failure detail under ["error"], the provider
    under ["model"] and the two sentinels under ["code"] and
    ["explanation"]; the manager is unchanged and one request was
    sent. *)
Theorem failed_call_carries_sentinels (c : capability) (model_name : string)
    (conn : connector) (temperature : float)
    (self : ModelManager.t connector) (log : list request) (detail : string) :
  model_name <> "" ->
  PyDict.get model_name (connectors self) = Some conn ->
  (forall rq, failed (net log rq) detail) ->
  exists rq,
    perform (API := api_connector net) c (Some model_name) temperature self log
    = ([("error", VStr detail); ("model", VStr model_name);
        ("code", VStr no_code); ("explanation", VStr no_explanation)],
       self, (log ++ [rq])%list).
Proof.
  intros Hne Hconn Hnet.
  assert (H : forall prompt, exists rq,
             generate_code (API := api_connector net) prompt (Some model_name)
               temperature self log
             = ([("error", VStr detail); ("model", VStr model_name);
                 ("code", VStr no_code); ("explanation", VStr no_explanation)],
                self, (log ++ [rq])%list)).
  { intros prompt.
    destruct (failed_call conn prompt temperature log detail Hnet) as [rq Hrq].
    exists rq. unfold generate_code, truthy_opt.
    destruct model_name as [|a m]; [contradiction|]. cbn [truthy].
    rewrite Hconn. cbn [connector_generate_code api_connector].
    rewrite Hrq. reflexivity. }
  destruct c; apply H.
Qed.

(** X16.  When the named provider's connector raises (the session
    raised something that is not a request exception), every capability
    call returns the single entry ["error"], "Failed to generate code: "
    followed by the exception's text; the manager is unchanged. *)
Theorem raised_call_is_error (c : capability) (model_name : string)
    (conn : connector) (temperature : float)
    (self : ModelManager.t connector) (log : list request)
    (o : outcome response) (e : exn) :
  model_name <> "" ->
  PyDict.get model_name (connectors self) = Some conn ->
  (forall rq, net log rq = o) ->
  exchange o = Raise e ->
  is_request_exception (exn_cls e) = false ->
  fst (perform (API := api_connector net) c (Some model_name) temperature self log)
  = (error_dict ("Failed to generate code: " ++ exn_msg e), self).
Proof.
  intros Hne Hconn Hnet Hex He.
  assert (H : forall prompt,
             fst (generate_code (API := api_connector net) prompt
                    (Some model_name) temperature self log)
             = (error_dict ("Failed to generate code: " ++ exn_msg e), self)).
  { intros prompt. unfold generate_code, truthy_opt.
    destruct model_name as [|a m]; [contradiction|]. cbn [truthy].
    rewrite Hconn. cbn [connector_generate_code api_connector].
    pose proof (ConnectorMore.generate_code_answer net conn prompt temperature
                  log o Hnet) as Ha.
    rewrite Hex in Ha. cbn [request_result] in Ha. rewrite He in Ha.
    cbn [bind] in Ha.
    destruct (ApiConnector.generate_code net conn prompt temperature log)
      as [r w']. cbn [fst] in Ha. subst r. reflexivity. }
  destruct c; apply H.
Qed.

End OverNetwork.

Lemma failed_call_carries_sentinels_witness :
  let api := api_connector Scenario.timing_out in
  let st := snd (set_api_key (API := api) "model5" "k5" init) in
  fst (fst (perform (API := api) (OptimizeCode "f()" "speed") (Some "model5")
              Scenario.temperature st []))
  = [("error", VStr "timed out"); ("model", VStr "model5");
     ("code", VStr "// No code generated");
     ("explanation", VStr "No explanation provided")].
Proof.
  cbv zeta.
  destruct (failed_call_carries_sentinels Scenario.timing_out
              (OptimizeCode "f()" "speed") "model5"
              (ApiConnector.ClaudeConnector "k5") Scenario.temperature
              (snd (set_api_key (API := api_connector Scenario.timing_out)
                      "model5" "k5" init))
              [] "timed out")
    as [rq ->].
  - discriminate.
  - reflexivity.
  - intros rq. apply ApiConnector.failed_timeout.
  - reflexivity.
Defined.

Lemma raised_call_is_error_witness :
  let net : network := fun _ _ => raise OSError "disk" in
  let api := api_connector net in
  let st := snd (set_api_key (API := api) "model4" "k4" init) in
  fst (perform (API := api) (GenerateCode "p") (Some "model4")
         Scenario.temperature st [])
  = (error_dict "Failed to generate code: disk", st).
Proof.
  cbv zeta.
  apply (raised_call_is_error (fun _ _ => raise OSError "disk")
           (GenerateCode "p") "model4" (ApiConnector.GrokConnector "k4")
           Scenario.temperature _ [] (raise OSError "disk")
           {| exn_cls := OSError; exn_msg := "disk" |});
    try reflexivity.
  discriminate.
Defined.

Lemma save_load_round_trip_witness :
  let api := api_connector Scenario.timing_out in
  let st := fst (run (API := api)
                   [SetApiKey "model1" "k1"; SetApiKey "model9" "k9";
                    SetApiKey "model2" "k2"; SetActiveModel "model2"] []) in
  let saved := save_api_keys (fun _ => true) "data/keys.json" st [] in
  let loaded := load_api_keys (API := api) "data/keys.json" init (snd saved) in
  api_keys (snd loaded)
  = [("model1", "k1"); ("model9", "k9"); ("model2", "k2")]
  /\ get_available_models (snd loaded) = ["model1"; "model2"]
  /\ active_model st = Some "model2"
  /\ active_model (snd loaded) = Some "model1".
Proof.
  cbv zeta.
  destruct (save_load_round_trip Scenario.timing_out
              [SetApiKey "model1" "k1"; SetApiKey "model9" "k9";
               SetApiKey "model2" "k2"; SetActiveModel "model2"] []
              (fun _ => true) "data/keys.json" [] eq_refl eq_refl)
    as (_ & _ & Hk & _).
  split; [rewrite Hk; reflexivity|].
  repeat split; reflexivity.
Defined.

End GatewayMore.

(** ** The thin wrapper in use *)

Module WrapperMore.

Import Str Py AIIntegration Wrapper PyDictFacts.

Lemma known_ids (model_name : string) :
  known model_name = true <-> In model_name ApiConnector.provider_ids.
Proof.
  unfold known, PyDict.mem, AI_MODELS, ApiConnector.provider_ids.
  cbn [PyDict.get In].
  repeat match goal with
         | |- context [String.eqb model_name ?k] =>
             destruct (String.eqb_spec model_name k) as [->|?];
             [split; [tauto | reflexivity]|]
         end.
  split; [discriminate | intuition congruence].
Qed.

Lemma unkeyed_set (self : AIIntegration.t) (m key : string) (info : model_info) :
  PyDict.get m self = Some info ->
  unkeyed (PyDict.set m (with_key info key) self) = unkeyed self.
Proof.
  unfold unkeyed.
  induction self as [|[k' i'] self IH]; cbn; [discriminate|].
  destruct (String.eqb m k'); cbn.
  - now intros [= ->].
  - intros H. now rewrite IH.
Qed.

Lemma unkeyed_set_api_key (self : AIIntegration.t) (m key : string) :
  unkeyed (snd (set_api_key m key self)) = unkeyed self.
Proof.
  unfold set_api_key. destruct (PyDict.get m self) as [info|] eqn:E;
    [now apply unkeyed_set | reflexivity].
Qed.

Lemma unkeyed_replay (l : list (string * string)) (self : AIIntegration.t) :
  unkeyed (fold_left (fun st kv => snd (set_api_key (fst kv) (snd kv) st)) l self)
  = unkeyed self.
Proof.
  revert self. induction l as [|[k v] l IH]; intros self; cbn; [reflexivity|].
  now rewrite IH, unkeyed_set_api_key.
Qed.

Lemma unkeyed_after keys calls : unkeyed (after keys calls) = AI_MODELS.
Proof.
  unfold after, init. rewrite unkeyed_replay.
  destruct keys as [ks|]; [now rewrite unkeyed_replay | reflexivity].
Qed.

Lemma get_unkeyed (self : AIIntegration.t) (m : string) :
  PyDict.get m (unkeyed self)
  = match PyDict.get m self with
    | Some info =>
        Some {| name := name info; api_key := None; endpoint := endpoint info;
                models := models info |}
    | None => None
    end.
Proof.
  unfold unkeyed.
  induction self as [|[k i] self IH]; cbn; [reflexivity|].
  now destruct (String.eqb m k).
Qed.

Lemma set_api_key_tracks (self : AIIntegration.t) (a : string -> option string)
    (m0 k0 : string) :
  tracks self a ->
  tracks (snd (set_api_key m0 k0 self))
    (fun m => if String.eqb m0 m then Some k0 else a m).
Proof.
  intros H m info. unfold set_api_key.
  destruct (PyDict.get m0 self) as [i0|] eqn:E; cbn [snd].
  - destruct (String.eqb_spec m0 m) as [->|Hne].
    + rewrite get_set_same. now intros [= <-].
    + rewrite get_set_other by exact Hne. apply H.
  - destruct (String.eqb_spec m0 m) as [->|Hne]; [congruence | apply H].
Qed.

Lemma replay_tracks (l : list (string * string)) (self : AIIntegration.t)
    (a : string -> option string) :
  tracks self a ->
  tracks (fold_left (fun st kv => snd (set_api_key (fst kv) (snd kv) st)) l self)
    (fun m => fold_left
                (fun acc kv => if String.eqb (fst kv) m then Some (snd kv) else acc)
                l (a m)).
Proof.
  revert self a. induction l as [|[k v] l IH]; intros self a H; cbn [fold_left];
    [exact H|].
  apply (IH _ (fun m => if String.eqb k m then Some v else a m)).
  now apply set_api_key_tracks.
Qed.

Lemma after_tracks keys calls :
  tracks (after keys calls) (fun m => last_key m (given keys calls)).
Proof.
  assert (H0 : tracks AI_MODELS (fun _ => None)).
  { intros m info. unfold AI_MODELS. cbn [PyDict.get].
    repeat match goal with
           | |- context [String.eqb m ?k] =>
               destruct (String.eqb m k); [now intros [= <-]|]
           end.
    discriminate. }
  unfold after, init, given, last_key.
  destruct keys as [ks|].
  - pose proof (replay_tracks calls _ _ (replay_tracks ks _ _ H0)) as H.
    intros m info Hg. rewrite fold_left_app. exact (H m info Hg).
  - apply (replay_tracks calls _ _ H0).
Qed.

Lemma after_entry (keys : option (PyDict.t string))
    (calls : list (string * string)) (model_name : string) :
  match PyDict.get model_name (after keys calls) with
  | Some info =>
      In model_name ApiConnector.provider_ids
      /\ api_key info = last_key model_name (given keys calls)
      /\ PyDict.get model_name AI_MODELS
         = Some {| name := name info; api_key := None;
                   endpoint := endpoint info; models := models info |}
  | None => ~ In model_name ApiConnector.provider_ids
  end.
Proof.
  pose proof (get_unkeyed (after keys calls) model_name) as Hu.
  rewrite unkeyed_after in Hu.
  destruct (PyDict.get model_name (after keys calls)) as [info|] eqn:E.
  - split; [|split].
    + apply known_ids. unfold known, PyDict.mem. now rewrite Hu.
    + now apply (after_tracks keys calls model_name info).
    + exact Hu.
  - intros Hin. apply known_ids in Hin. unfold known, PyDict.mem in Hin.
    now rewrite Hu in Hin.
Qed.

(** X17.  The object built by [AIIntegration(keys)] and any
    [set_api_key] calls has an entry for exactly the five names; each
    entry holds the last key given for that name (none when none was
    given) and the name, endpoint and model table it started with.  Keys
    given for other names are dropped. *)
Theorem wrapper_state (keys : option (PyDict.t string))
    (calls : list (string * string)) (model_name : string) :
  match PyDict.get model_name (after keys calls) with
  | Some info =>
      In model_name ApiConnector.provider_ids
      /\ api_key info = last_key model_name (given keys calls)
      /\ PyDict.get model_name AI_MODELS
         = Some {| name := name info; api_key := None;
                   endpoint := endpoint info; models := models info |}
  | None => ~ In model_name ApiConnector.provider_ids
  end.
Proof. apply after_entry. Qed.

(** What every operation returns on such an object. *)
Lemma serve_spec keys calls (model_name : string) (o : operation) :
  serve (after keys calls) model_name o
  = if negb (known model_name)
    then VDict (error_dict ("Unknown model: " ++ model_name))
    else if negb (key_is_set (last_key model_name (given keys calls)))
    then VDict (error_dict ("No API key provided for " ++ display_name model_name))
    else match o with
         | Documentation _ _ _ => canned_chat model_name
         | Optimize _ _ _ =>
             VDict (error_dict ("API integration not implemented for "
                                ++ model_name))
         | _ => canned_code model_name
         end.
Proof.
  pose proof (after_entry keys calls model_name) as H.
  destruct (PyDict.get model_name (after keys calls)) as [info|] eqn:E.
  - destruct H as (Hin & Hkey & Htab).
    assert (Hk : known model_name = true) by now apply known_ids.
    rewrite Hk. cbn [negb]. rewrite <- Hkey.
    assert (Hname : display_name model_name = name info)
      by (unfold display_name; now rewrite Htab).
    rewrite Hname.
    assert (Hg : forall body, guarded (after keys calls) model_name body
                 = if has_key info then body info
                   else VDict (error_dict ("No API key provided for " ++ name info)))
      by (intros body; unfold guarded; now rewrite E).
    change (key_is_set (api_key info)) with (has_key info).
    destruct (has_key info) eqn:Hh; cbn [negb].
    + cbn [In ApiConnector.provider_ids] in Hin.
      unfold AI_MODELS in Htab.
      destruct Hin as [<-|[<-|[<-|[<-|[<-|[]]]]]];
        cbn in Htab; injection Htab as _ _ Hmodels;
        destruct o; unfold serve, generate_code, generate_documentation,
          generate_tests, fix_bugs, optimize_code;
        rewrite Hg, ?Hh; cbv zeta;
        unfold dispatch, _call_model1_api, _call_model2_api, _call_model3_api,
          _call_model4_api, _call_model5_api, call_api;
        cbn [String.eqb Ascii.eqb Bool.eqb]; rewrite ?E, <- ?Hmodels;
        reflexivity.
    + destruct o; unfold serve, generate_code, generate_documentation,
        generate_tests, fix_bugs, optimize_code; rewrite Hg, ?Hh; reflexivity.
  - assert (Hk : known model_name = false).
    { destruct (known model_name) eqn:Hk; [|reflexivity].
      apply known_ids in Hk. contradiction. }
    rewrite Hk. cbn [negb].
    destruct o; unfold serve, generate_code, generate_documentation,
      generate_tests, fix_bugs, optimize_code, guarded; now rewrite E.
Qed.

(** X18.  On such an object every operation is refused the same way:
    for a name outside the five, "Unknown model" (and [set_api_key]
    returns [False] and changes nothing); for one of the five whose last
    key is missing or empty, "No API key provided for" its display
    name. *)
Theorem wrapper_guards (keys : option (PyDict.t string))
    (calls : list (string * string)) (model_name : string) (o : operation) :
  (~ In model_name ApiConnector.provider_ids ->
   serve (after keys calls) model_name o
   = VDict (error_dict ("Unknown model: " ++ model_name))
   /\ forall key,
       set_api_key model_name key (after keys calls) = (false, after keys calls))
  /\ (In model_name ApiConnector.provider_ids ->
      key_is_set (last_key model_name (given keys calls)) = false ->
      serve (after keys calls) model_name o
      = VDict (error_dict ("No API key provided for " ++ display_name model_name))).
Proof.
  rewrite serve_spec. split.
  - intros Hin.
    assert (Hk : known model_name = false).
    { destruct (known model_name) eqn:Hk; [|reflexivity].
      apply known_ids in Hk. contradiction. }
    rewrite Hk. split; [reflexivity|].
    intros key. unfold set_api_key.
    pose proof (after_entry keys calls model_name) as H.
    destruct (PyDict.get model_name (after keys calls)); [|reflexivity].
    destruct H as [H _]. contradiction.
  - intros Hin Hkey. apply known_ids in Hin. now rewrite Hin, Hkey.
Qed.

Lemma wrapper_guards_witness :
  serve (after None [("deepseek", "k")]) "deepseek" (Bugs "f()" "boom" "python")
  = VDict (error_dict "Unknown model: deepseek")
  /\ serve (after (Some [("model2", "k2")]) [("model2", "")]) "model2"
       (Documentation "f()" "python" "markdown")
     = VDict (error_dict "No API key provided for Model 2").
Proof.
  split.
  - apply (wrapper_guards None [("deepseek", "k")] "deepseek"
             (Bugs "f()" "boom" "python")).
    cbn. intros [E|[E|[E|[E|[E|[]]]]]]; discriminate E.
  - apply (wrapper_guards (Some [("model2", "k2")]) [("model2", "")] "model2"
             (Documentation "f()" "python" "markdown")).
    + cbn. tauto.
    + reflexivity.
Defined.

(** X19.  For one of the five names whose last key is not empty, the
    replies are canned and do not depend on the arguments: code
    generation, test generation and bug fixing return the provider's
    sample code with a fixed explanation, and documentation returns a
    single ["content"] entry, with no ["code"] and no ["explanation"]. *)
Theorem replies_are_canned (keys : option (PyDict.t string))
    (calls : list (string * string)) (model_name : string) (o : operation) :
  In model_name ApiConnector.provider_ids ->
  key_is_set (last_key model_name (given keys calls)) = true ->
  match o with
  | Documentation _ _ _ =>
      serve (after keys calls) model_name o = canned_chat model_name
      /\ exists text, canned_chat model_name = VDict [("content", VStr text)]
  | Optimize _ _ _ => True
  | _ =>
      serve (after keys calls) model_name o = canned_code model_name
      /\ exists code,
          canned_code model_name
          = VDict [("code", VStr code);
                   ("explanation",
                    VStr "This code implements a basic solution based on your requirements.")]
  end.
Proof.
  intros Hin Hkey. rewrite serve_spec.
  apply known_ids in Hin. rewrite Hin, Hkey. cbn [negb].
  destruct o; try exact I; (split; [reflexivity|]); eexists; reflexivity.
Qed.

Lemma replies_are_canned_witness :
  serve (after None [("model4", "k4")]) "model4" (Tests "f()" "python" None)
  = serve (after None [("model4", "k4")]) "model4"
      (Code "anything" "rust" (Some "axum") true true true).
Proof.
  destruct (replies_are_canned None [("model4", "k4")] "model4"
              (Tests "f()" "python" None)) as [-> _];
    [cbn; tauto | reflexivity |].
  destruct (replies_are_canned None [("model4", "k4")] "model4"
              (Code "anything" "rust" (Some "axum") true true true)) as [-> _];
    [cbn; tauto | reflexivity |].
  reflexivity.
Defined.

(** X20.  On such an object [optimize_code] never produces anything but
    an error, whatever the model name and the arguments. *)
Theorem optimize_code_always_fails (keys : option (PyDict.t string))
    (calls : list (string * string))
    (model_name code language optimization_target : string) :
  exists msg,
    optimize_code (after keys calls) model_name code language optimization_target
    = VDict (error_dict msg).
Proof.
  pose proof (serve_spec keys calls model_name
                (Optimize code language optimization_target)) as H.
  cbn [serve] in H. rewrite H.
  destruct (negb (known model_name)); [now eexists|].
  destruct (negb (key_is_set _)); now eexists.
Qed.

(** X21.  [get_available_models] on such an object lists, in table
    order, exactly the names whose last key is not empty, each with its
    display name and the capabilities code, chat and vision. *)
Theorem available_models_listing (keys : option (PyDict.t string))
    (calls : list (string * string)) :
  get_available_models (after keys calls)
  = flat_map
      (fun m =>
         if key_is_set (last_key m (given keys calls))
         then [{| listed_id := m; listed_name := display_name m;
                  capabilities := ["code"; "chat"; "vision"] |}]
         else [])
      ApiConnector.provider_ids.
Proof.
  pose proof (unkeyed_after keys calls) as Hu.
  pose proof (after_tracks keys calls) as Ht.
  destruct (after keys calls) as [|[k1 i1] [|[k2 i2] [|[k3 i3] [|[k4 i4]
             [|[k5 i5] [|? ?]]]]]]; try discriminate Hu.
  unfold unkeyed, AI_MODELS in Hu. cbn [map fst snd] in Hu.
  injection Hu as -> Hn1 He1 Hm1 -> Hn2 He2 Hm2 -> Hn3 He3 Hm3
                  -> Hn4 He4 Hm4 -> Hn5 He5 Hm5.
  pose proof (Ht "model1" i1 eq_refl) as H1.
  pose proof (Ht "model2" i2 eq_refl) as H2.
  pose proof (Ht "model3" i3 eq_refl) as H3.
  pose proof (Ht "model4" i4 eq_refl) as H4.
  pose proof (Ht "model5" i5 eq_refl) as H5.
  unfold get_available_models, has_key, ApiConnector.provider_ids.
  cbn [flat_map]. rewrite <- H1, <- H2, <- H3, <- H4, <- H5.
  rewrite Hn1, Hn2, Hn3, Hn4, Hn5, Hm1, Hm2, Hm3, Hm4, Hm5.
  reflexivity.
Qed.

End WrapperMore.

(** ** The page, the storage and the manager *)

Module AppMore.

Import Str Py PyDictFacts Wire App.
Import ApiConnector(network, request, connector, provider_ids).
Import ModelManager.

Section OverNetwork.

Variable net : network.

(** X22.  [init_api_keys] on a fresh manager makes available exactly
    the models whose stored item is a non-empty string, in the order
    model1 to model5, and the first of them is the active model (none
    when there is none). *)
Theorem init_api_keys_loads_stored (store : storage) :
  let st := init_api_keys (API := api_connector net) store init in
  get_available_models st
  = filter (fun m => usable (PyDict.get (m ++ "_api_key") store)) provider_ids
  /\ active_model st = hd_error (get_available_models st).
Proof.
  cbv zeta. unfold init_api_keys, load_item, provider_ids.
  cbn [filter append].
  destruct (PyDict.get "model1_api_key" store) as [[|a1 k1]|];
    destruct (PyDict.get "model2_api_key" store) as [[|a2 k2]|];
    destruct (PyDict.get "model3_api_key" store) as [[|a3 k3]|];
    destruct (PyDict.get "model4_api_key" store) as [[|a4 k4]|];
    destruct (PyDict.get "model5_api_key" store) as [[|a5 k5]|];
    split; reflexivity.
Qed.

Lemma save_item_store (m' item' key : string)
    (st : storage * ModelManager.t connector) (item : string) :
  PyDict.get item (fst (save_item (API := api_connector net) m' item' key st))
  = if truthy key && String.eqb item' item then Some key
    else PyDict.get item (fst st).
Proof.
  unfold save_item. destruct (truthy key); cbn [fst andb]; [|reflexivity].
  destruct (String.eqb_spec item' item) as [->|Hne];
    [apply get_set_same | now apply get_set_other].
Qed.

Lemma save_item_connectors (m' item' key : string)
    (st : storage * ModelManager.t connector) (m : string) :
  PyDict.get m (connectors (snd (save_item (API := api_connector net) m' item' key st)))
  = if truthy key then
      match ApiConnector.create_connector m' key with
      | Ret c => if String.eqb m' m then Some c
                 else PyDict.get m (connectors (snd st))
      | Raise _ => PyDict.get m (connectors (snd st))
      end
    else PyDict.get m (connectors (snd st)).
Proof.
  unfold save_item. destruct (truthy key) eqn:Hk; cbn [snd]; [|reflexivity].
  now rewrite GatewayMore.set_api_key_connectors, Hk.
Qed.

Lemma load_item_connectors (m' item' : string) (store : storage)
    (manager : ModelManager.t connector) (m : string) :
  PyDict.get m (connectors (load_item (API := api_connector net) m' item' store manager))
  = match PyDict.get item' store with
    | Some key =>
        if truthy key then
          match ApiConnector.create_connector m' key with
          | Ret c => if String.eqb m' m then Some c
                     else PyDict.get m (connectors manager)
          | Raise _ => PyDict.get m (connectors manager)
          end
        else PyDict.get m (connectors manager)
    | None => PyDict.get m (connectors manager)
    end.
Proof.
  unfold load_item. destruct (PyDict.get item' store) as [key|]; [|reflexivity].
  destruct (truthy key) eqn:Hk; [|reflexivity].
  now rewrite GatewayMore.set_api_key_connectors, Hk.
Qed.

(** What [save_api_keys] leaves in the storage and in the manager when
    the five fields are there. *)
Lemma save_api_keys_fields (pg : page) (store : storage)
    (manager : ModelManager.t connector) (k1 k2 k3 k4 k5 : string) :
  PyDict.get "model1-api-key" (inputs pg) = Some k1 ->
  PyDict.get "model2-api-key" (inputs pg) = Some k2 ->
  PyDict.get "model3-api-key" (inputs pg) = Some k3 ->
  PyDict.get "model4-api-key" (inputs pg) = Some k4 ->
  PyDict.get "model5-api-key" (inputs pg) = Some k5 ->
  snd (fst (App.save_api_keys (API := api_connector net) pg store manager))
  = fst (save_item (API := api_connector net) "model5" "model5_api_key" k5
           (save_item (API := api_connector net) "model4" "model4_api_key" k4
              (save_item (API := api_connector net) "model3" "model3_api_key" k3
                 (save_item (API := api_connector net) "model2" "model2_api_key" k2
                    (save_item (API := api_connector net) "model1" "model1_api_key" k1 (store, manager))))))
  /\ snd (App.save_api_keys (API := api_connector net) pg store manager)
     = snd (save_item (API := api_connector net) "model5" "model5_api_key" k5
              (save_item (API := api_connector net) "model4" "model4_api_key" k4
                 (save_item (API := api_connector net) "model3" "model3_api_key" k3
                    (save_item (API := api_connector net) "model2" "model2_api_key" k2
                       (save_item (API := api_connector net) "model1" "model1_api_key" k1 (store, manager)))))).
Proof.
  intros H1 H2 H3 H4 H5. unfold App.save_api_keys.
  rewrite H1, H2, H3, H4, H5. split; reflexivity.
Qed.

(** X23.  With the five input elements on the page, [save_api_keys]
    treats each field on its own: a non-empty value is written to the
    field's storage item and becomes the model's connector key; an empty
    value changes neither the stored item nor the model's connector.  So
    emptying a field does not remove a key. *)
Theorem save_api_keys_by_field (pg : page) (store : storage)
    (manager : ModelManager.t connector) (k1 k2 k3 k4 k5 : string)
    (model_name item field key : string) :
  PyDict.get "model1-api-key" (inputs pg) = Some k1 ->
  PyDict.get "model2-api-key" (inputs pg) = Some k2 ->
  PyDict.get "model3-api-key" (inputs pg) = Some k3 ->
  PyDict.get "model4-api-key" (inputs pg) = Some k4 ->
  PyDict.get "model5-api-key" (inputs pg) = Some k5 ->
  In (model_name, (item, field)) slots ->
  PyDict.get field (inputs pg) = Some key ->
  let out := App.save_api_keys (API := api_connector net) pg store manager in
  PyDict.get item (snd (fst out))
  = (if truthy key then Some key else PyDict.get item store)
  /\ PyDict.get model_name (connectors (snd out))
     = (if truthy key then connector_for model_name (Some key)
        else PyDict.get model_name (connectors manager)).
Proof.
  intros H1 H2 H3 H4 H5 Hslot Hkey. cbv zeta.
  destruct (save_api_keys_fields pg store manager k1 k2 k3 k4 k5 H1 H2 H3 H4 H5)
    as [-> ->].
  rewrite !save_item_store, !save_item_connectors. cbn [fst snd].
  unfold connector_for, ApiConnector.create_connector.
  cbn [In slots] in Hslot.
  destruct Hslot as [E|[E|[E|[E|[E|[]]]]]]; injection E as <- <- <-;
    rewrite ?H1, ?H2, ?H3, ?H4, ?H5 in Hkey; injection Hkey as <-;
    cbn [String.eqb Ascii.eqb Bool.eqb];
    rewrite ?andb_false_r, ?andb_true_r;
    destruct (truthy k1), (truthy k2), (truthy k3), (truthy k4), (truthy k5);
    split; reflexivity.
Qed.

Lemma load_item_other (m' item' : string) (store : storage)
    (manager : ModelManager.t connector) (m : string) :
  m' <> m ->
  PyDict.get m (connectors (load_item (API := api_connector net) m' item' store manager))
  = PyDict.get m (connectors manager).
Proof.
  intros Hne. rewrite load_item_connectors.
  apply String.eqb_neq in Hne. rewrite Hne.
  destruct (PyDict.get item' store) as [key|]; [|reflexivity].
  destruct (truthy key); [|reflexivity].
  now destruct (ApiConnector.create_connector m' key).
Qed.

Lemma save_item_store_other (m' item' key : string)
    (st : storage * ModelManager.t connector) (item : string) :
  item' <> item ->
  PyDict.get item (fst (save_item (API := api_connector net) m' item' key st))
  = PyDict.get item (fst st).
Proof.
  intros Hne. rewrite save_item_store. apply String.eqb_neq in Hne.
  now rewrite Hne, andb_false_r.
Qed.

(** X24.  What is saved comes back: after [save_api_keys] with the
    five fields on the page, [init_api_keys] from the resulting storage
    on a fresh manager gives every model whose field was not empty the
    connector made from that field's value. *)
Theorem saved_keys_are_reloaded (pg : page) (store : storage)
    (manager : ModelManager.t connector) (k1 k2 k3 k4 k5 : string)
    (model_name item field key : string) :
  PyDict.get "model1-api-key" (inputs pg) = Some k1 ->
  PyDict.get "model2-api-key" (inputs pg) = Some k2 ->
  PyDict.get "model3-api-key" (inputs pg) = Some k3 ->
  PyDict.get "model4-api-key" (inputs pg) = Some k4 ->
  PyDict.get "model5-api-key" (inputs pg) = Some k5 ->
  In (model_name, (item, field)) slots ->
  PyDict.get field (inputs pg) = Some key ->
  key <> "" ->
  let out := App.save_api_keys (API := api_connector net) pg store manager in
  PyDict.get model_name
    (connectors (init_api_keys (API := api_connector net) (snd (fst out)) init))
  = connector_for model_name (Some key).
Proof.
  intros H1 H2 H3 H4 H5 Hslot Hkey Hne. cbv zeta.
  destruct (save_api_keys_fields pg store manager k1 k2 k3 k4 k5 H1 H2 H3 H4 H5)
    as [-> _].
  unfold init_api_keys. cbn [In slots] in Hslot.
  assert (Ht : truthy key = true) by (destruct key; [contradiction | reflexivity]).
  destruct Hslot as [E|[E|[E|[E|[E|[]]]]]]; injection E as <- <- <-;
    rewrite ?H1, ?H2, ?H3, ?H4, ?H5 in Hkey; injection Hkey as ->;
    repeat (rewrite load_item_other by discriminate);
    rewrite load_item_connectors;
    repeat (rewrite save_item_store_other by discriminate);
    rewrite save_item_store, Ht, String.eqb_refl; cbn [andb];
    unfold connector_for; rewrite Ht; rewrite String.eqb_refl;
    now destruct (ApiConnector.create_connector _ key) eqn:Hc;
      [| exfalso; revert Hc; unfold ApiConnector.create_connector;
         cbn [String.eqb Ascii.eqb Bool.eqb]; discriminate ].
Qed.

End OverNetwork.

Lemma save_api_keys_by_field_witness :
  let pg := {| inputs := [("model1-api-key", ""); ("model2-api-key", "new2");
                          ("model3-api-key", ""); ("model4-api-key", "");
                          ("model5-api-key", "")];
               modal_hidden := Some false |} in
  let api := api_connector Scenario.timing_out in
  let manager := snd (set_api_key (API := api) "model1" "old1" init) in
  let out := App.save_api_keys (API := api) pg [("model1_api_key", "old1")] manager in
  PyDict.get "model1_api_key" (snd (fst out)) = Some "old1"
  /\ PyDict.get "model1" (connectors (snd out))
     = Some (ApiConnector.DeepSeekConnector "old1").
Proof.
  cbv zeta.
  apply (save_api_keys_by_field Scenario.timing_out
           {| inputs := [("model1-api-key", ""); ("model2-api-key", "new2");
                         ("model3-api-key", ""); ("model4-api-key", "");
                         ("model5-api-key", "")];
              modal_hidden := Some false |}
           [("model1_api_key", "old1")]
           (snd (set_api_key (API := api_connector Scenario.timing_out)
                   "model1" "old1" init))
           "" "new2" "" "" ""
           "model1" "model1_api_key" "model1-api-key" "");
    try reflexivity.
  cbn. tauto.
Defined.

Lemma saved_keys_are_reloaded_witness :
  let pg := {| inputs := [("model1-api-key", ""); ("model2-api-key", "new2");
                          ("model3-api-key", ""); ("model4-api-key", "");
                          ("model5-api-key", "")];
               modal_hidden := None |} in
  let api := api_connector Scenario.timing_out in
  let out := App.save_api_keys (API := api) pg [] init in
  PyDict.get "model2" (connectors (init_api_keys (API := api) (snd (fst out)) init))
  = Some (ApiConnector.GeminiConnector "new2").
Proof.
  cbv zeta.
  apply (saved_keys_are_reloaded Scenario.timing_out
           {| inputs := [("model1-api-key", ""); ("model2-api-key", "new2");
                         ("model3-api-key", ""); ("model4-api-key", "");
                         ("model5-api-key", "")];
              modal_hidden := None |}
           [] init "" "new2" "" "" ""
           "model2" "model2_api_key" "model2-api-key" "new2");
    try reflexivity.
  - cbn. tauto.
  - discriminate.
Defined.

End AppMore.
